(** * Ecommerce API: the order workflow of [main.py] over the schemas of
    [schemas.py]

    The development embeds [serialize_doc], [get_product], [create_product]
    and [create_order] of [main.py] together with the pydantic models of
    [schemas.py], and the two [POST] endpoints around their handlers: the
    validation of the request body before the handler runs, the rendering of
    what it returns after.

    - Python [float]s are IEEE 754 binary64 numbers, taken from the
      specification of floating-point numbers of the standard library
      ([SpecFloat], precision 53, [emax] 1024); [round(x, 2)] is CPython's
      correctly rounded rounding to two decimals.
    - The document store is a pair of collections indexed by [ObjectId];
      handlers are computations in a state-and-exception monad over the store,
      a raised exception leaving the writes made before it in place.
    - A Python [dict] is an association list in insertion order. *)

From Stdlib Require Import ZArith NArith Ascii String List Lia DecimalString.
From Stdlib Require Import Floats.SpecFloat.
From stdpp Require Import gmap strings list.

Open Scope Z_scope.

(** ** Floats *)

Definition float : Type := spec_float.

Definition prec : Z := 53.
Definition emax : Z := 1024.

Definition fadd : float → float → float := SFadd prec emax.
Definition fmul : float → float → float := SFmul prec emax.
Definition fdiv : float → float → float := SFdiv prec emax.

(** [x <= y] and [x == y] on floats; both are false on NaN. *)
Definition fleb : float → float → bool := SFleb.
Definition feqb : float → float → bool := SFeqb.

Definition fzero : float := S754_zero false.

(** The binary64 number nearest to an integer (ties to even). *)
Definition float_of_Z (z : Z) : float := binary_normalize prec emax z 0 false.

(** [float(n)] for a Python [int], also the implicit conversion of
    [price * item.quantity]: an [int] too large for a double raises
    [OverflowError]. *)
Definition float_of_int (z : Z) : option float :=
  match float_of_Z z with
  | S754_infinity _ => None
  | f => Some f
  end.

(** A decimal literal [n / d], such as [19.99 = decimal 1999 100]. *)
Definition decimal (n d : Z) : float := fdiv (float_of_Z n) (float_of_Z d).

(** The exact value [m * 2^e] in hundredths, rounded to the nearest integer,
    ties to even. *)
Definition hundredths (m : positive) (e : Z) : Z :=
  match e with
  | Zneg p =>
      let d := Z.pow_pos 2 p in
      let (q, r) := Z.div_eucl (Zpos m * 100) d in
      match Z.compare (2 * r) d with
      | Lt => q
      | Gt => q + 1
      | Eq => if Z.even q then q else q + 1
      end
  | _ => Zpos m * 100 * 2 ^ e
  end.

(** [round(x, 2)]: the decimal with two digits after the point nearest to the
    exact value of [x], read back as the nearest double; zeros, infinities and
    NaN are returned as they are. *)
Definition round2 (x : float) : float :=
  match x with
  | S754_finite s m e =>
      match hundredths m e with
      | Zpos n => fdiv (S754_finite s n 0) (float_of_Z 100)
      | _ => S754_zero s
      end
  | _ => x
  end.

(** [float(x or 0)]: a zero of either sign is falsy and replaced by the
    integer [0]. *)
Definition float_or_zero (x : float) : float :=
  match x with
  | S754_zero _ => fzero
  | _ => x
  end.

(** ** Strings of digits *)

Definition digit_char (d : N) : ascii :=
  ascii_of_N (if (d <? 10)%N then 48 + d else 87 + d).

(** The [w] least significant digits of [n] in base [b], most significant
    first, in front of [acc]. *)
Fixpoint digits (b : N) (w : nat) (n : N) (acc : string) : string :=
  match w with
  | O => acc
  | S w' => digits b w' (n / b)%N (String (digit_char (n mod b)%N) acc)
  end.

Fixpoint string_forallb (p : ascii → bool) (s : string) : bool :=
  match s with
  | EmptyString => true
  | String c s' => p c && string_forallb p s'
  end.

(** ** bson.ObjectId *)

(** An [ObjectId] holds bytes, twelve of them when the store assigned it. It
    is held as the lowercase hexadecimal digits of its bytes, the text
    [str(oid)] returns. *)
Definition ObjectId : Type := string.

Definition is_hex (c : ascii) : bool :=
  let n := N_of_ascii c in
  ((48 <=? n) && (n <=? 57) || (65 <=? n) && (n <=? 70)
   || (97 <=? n) && (n <=? 102))%N.

Definition hex_lower (c : ascii) : ascii :=
  let n := N_of_ascii c in
  if ((65 <=? n) && (n <=? 70))%N then ascii_of_N (n + 32) else c.

(** ASCII whitespace: tab, line feed, vertical tab, form feed, carriage
    return and space. *)
Definition is_space (c : ascii) : bool :=
  let n := N_of_ascii c in
  ((9 <=? n) && (n <=? 13) || (n =? 32))%N.

(** [bytes.fromhex(s)], as the digits of the bytes it returns: two adjacent
    hexadecimal digits per byte, whitespace skipped before and between the
    bytes; [None] stands for [ValueError]. *)
Fixpoint fromhex (s : string) : option string :=
  match s with
  | EmptyString => Some EmptyString
  | String c s' =>
      if is_space c then fromhex s'
      else if is_hex c then
        match s' with
        | String c' s'' =>
            if is_hex c' then
              match fromhex s'' with
              | Some bytes =>
                  Some (String (hex_lower c) (String (hex_lower c') bytes))
              | None => None
              end
            else None
        | EmptyString => None
        end
      else None
  end.

(** [ObjectId(s)] for a string: it must have 24 characters and be read by
    [bytes.fromhex], which leaves fewer than twelve bytes when it skips
    whitespace; [None] stands for [InvalidId]. *)
Definition ObjectId_new (s : string) : option ObjectId :=
  if (String.length s =? 24)%nat then fromhex s else None.

Definition ObjectId_str (oid : ObjectId) : string := oid.

(** The identifier the store assigns to its [n]-th insertion. *)
Definition ObjectId_generate (n : N) : ObjectId := digits 16 24 n "".

(** ** Documents *)

Record datetime : Type := mk_datetime {
  year : N; month : N; day : N;
  hour : N; minute : N; second : N; microsecond : N
}.

(** [datetime.isoformat(sep)] of a naive datetime. *)
Definition isoformat_sep (sep : ascii) (t : datetime) : string :=
  digits 10 4 (year t) "" +:+ "-" +:+ digits 10 2 (month t) "" +:+ "-"
  +:+ digits 10 2 (day t) "" +:+ String sep ""
  +:+ digits 10 2 (hour t) "" +:+ ":" +:+ digits 10 2 (minute t) "" +:+ ":"
  +:+ digits 10 2 (second t) ""
  +:+ (if (microsecond t =? 0)%N then ""
       else "." +:+ digits 10 6 (microsecond t) "").

Definition isoformat : datetime → string := isoformat_sep "T".

#[warnings="-register-all"]
Inductive value : Type :=
  | VNone
  | VBool (b : bool)
  | VInt (z : Z)
  | VFloat (f : float)
  | VStr (s : string)
  | VObjectId (oid : ObjectId)
  | VDatetime (t : datetime)
  | VList (l : list value)
  | VDict (d : list (string * value)).

(** [Dict[str, Any]] *)
Definition Dict : Type := list (string * value).

Definition keys (d : Dict) : list string := map fst d.

(** [d[k] = v]: an existing key keeps its place, a new key goes last. *)
Fixpoint dict_set (k : string) (v : value) (d : Dict) : Dict :=
  match d with
  | [] => [(k, v)]
  | (k', v') :: d' =>
      if String.eqb k' k then (k, v) :: d' else (k', v') :: dict_set k v d'
  end.

(** A float that is neither infinite nor NaN. *)
Definition is_finite (f : float) : bool :=
  match f with
  | S754_zero _ | S754_finite _ _ _ => true
  | S754_infinity _ | S754_nan => false
  end.

(** What [json.dumps(..., allow_nan=False)] behind [jsonable_encoder]
    accepts: every float finite; a date/time is encoded as text, an
    [ObjectId] has no encoding. *)
Fixpoint json_compliant (v : value) : bool :=
  match v with
  | VFloat f => is_finite f
  | VObjectId _ => false
  | VList l => forallb json_compliant l
  | VDict d =>
      forallb (λ kv, match kv with (_, v') => json_compliant v' end) d
  | _ => true
  end.

Definition json_compliant_doc (content : option Dict) : bool :=
  match content with
  | None => true
  | Some d => json_compliant (VDict d)
  end.

(** ** Exceptions and the store monad *)

Inductive exn : Type :=
  | HTTPException (status_code : Z) (detail : string)
  | RequestValidationError
  | ValidationError
  | OverflowError
  | InvalidId
  | ValueError.

(** The errors of the order workflow, by the names the specification gives
    them. *)
Definition EmptyOrder : exn := HTTPException 400 "No items in order".
Definition InvalidIdentifier (product_id : string) : exn :=
  HTTPException 400 ("Invalid product id: " +:+ product_id).
Definition ProductNotFound (product_id : string) : exn :=
  HTTPException 404 ("Product not found: " +:+ product_id).
Definition InsufficientStock (title : string) : exn :=
  HTTPException 400 ("Insufficient stock for " +:+ title).

Inductive result (A : Type) : Type :=
  | Ok (a : A)
  | Raise (e : exn).
Arguments Ok {A} a.
Arguments Raise {A} e.

(** ** schemas.py *)

(** A document of the [product] collection: the fields of the [Product] model;
    [None] is a key that is absent (or, for the two optional strings, null),
    which is what [prod.get] tells apart from a value. *)
Module Product.
Record t : Type := mk {
  title : option string;
  description : option string;
  price : option float;
  category : option string;
  image : option string;
  in_stock : option bool;
  stock_qty : option Z
}.
End Product.

Module OrderItem.
Record t : Type := mk {
  product_id : string;
  title : string;
  price : float;
  quantity : Z;
  image : option string
}.

(** [price: float = Field(..., ge=0)], [quantity: int = Field(..., ge=1)] *)
Definition validate (it : t) : bool :=
  fleb fzero (price it) && (1 <=? quantity it).

Definition model_dump (it : t) : Dict :=
  [ ("product_id", VStr (product_id it));
    ("title", VStr (title it));
    ("price", VFloat (price it));
    ("quantity", VInt (quantity it));
    ("image", match image it with Some s => VStr s | None => VNone end) ].
End OrderItem.

(** The [customer_email] field of a parsed model holds the address as
    [EmailStr] returned it; [EmailStr] itself is applied to a request body
    by [CreateOrderRequest] below. *)
Module Order.
Record t : Type := mk {
  customer_name : string;
  customer_email : string;
  customer_address : string;
  items : list OrderItem.t;
  subtotal : float;
  shipping : float;
  total : float;
  status : string
}.

(** [subtotal], [shipping] and [total] are [ge=0]. *)
Definition validate_fields (o : t) : bool :=
  fleb fzero (subtotal o) && fleb fzero (shipping o) && fleb fzero (total o).

(** The field constraints of a request body, those of its items with them;
    the [customer_email] field is checked apart, by [EmailStr]. *)
Definition validate (o : t) : bool :=
  forallb OrderItem.validate (items o) && validate_fields o.

Definition model_dump (o : t) : Dict :=
  [ ("customer_name", VStr (customer_name o));
    ("customer_email", VStr (customer_email o));
    ("customer_address", VStr (customer_address o));
    ("items", VList (map (λ it, VDict (OrderItem.model_dump it)) (items o)));
    ("subtotal", VFloat (subtotal o));
    ("shipping", VFloat (shipping o));
    ("total", VFloat (total o));
    ("status", VStr (status o)) ].
End Order.

(** The [Product] model as a request body or a constructor call holds it:
    [title], [price] and [category] are required, [in_stock] and [stock_qty]
    have defaults, so every field has a value. *)
Module ProductSchema.
Record t : Type := mk {
  title : string;
  description : option string;
  price : float;
  category : string;
  image : option string;
  in_stock : bool;
  stock_qty : Z
}.

(** [price: float = Field(..., ge=0)], [stock_qty: int = Field(50, ge=0)] *)
Definition validate (p : t) : bool :=
  fleb fzero (price p) && (0 <=? stock_qty p).

(** [model_dump()], as the document the store keeps: every key present. *)
Definition model_dump (p : t) : Product.t :=
  Product.mk (Some (title p)) (description p) (Some (price p))
    (Some (category p)) (image p) (Some (in_stock p)) (Some (stock_qty p)).
End ProductSchema.

(** ** The store *)

(** [db]: the two collections and the count of identifiers assigned so far. *)
Record Store : Type := mk_Store {
  db_product : gmap ObjectId Product.t;
  db_order : gmap ObjectId Order.t;
  db_assigned : N
}.

Definition M (A : Type) : Type := Store → result A * Store.

Definition ret {A} (a : A) : M A := λ db, (Ok a, db).
Definition raise {A} (e : exn) : M A := λ db, (Raise e, db).
Definition bind {A B} (m : M A) (k : A → M B) : M B :=
  λ db, match m db with
        | (Ok a, db') => k a db'
        | (Raise e, db') => (Raise e, db')
        end.

Notation "'let*' x ':=' m 'in' k" := (bind m (λ x, k))
  (at level 10, x pattern, m at level 100, k at level 200, only parsing).

(** [db["product"].find_one({"_id": oid})] *)
Definition find_one_product (oid : ObjectId) : M (option Product.t) :=
  λ db, (Ok (db_product db !! oid), db).

(** [db["order"].find_one({"_id": oid})] *)
Definition find_one_order (oid : ObjectId) : M (option Order.t) :=
  λ db, (Ok (db_order db !! oid), db).

(** [$inc] on [stock_qty]: an absent field counts as [0]. *)
Definition inc_stock_qty (n : Z) (prod : Product.t) : Product.t :=
  Product.mk (Product.title prod) (Product.description prod)
    (Product.price prod) (Product.category prod) (Product.image prod)
    (Product.in_stock prod) (Some (default 0 (Product.stock_qty prod) + n)).

(** [db["product"].update_one({"_id": oid}, {"$inc": {"stock_qty": n}})]:
    nothing happens when no document matches. *)
Definition update_one_product_inc (oid : ObjectId) (n : Z) : M unit :=
  λ db, (Ok tt, mk_Store (alter (inc_stock_qty n) oid (db_product db))
                  (db_order db) (db_assigned db)).

(** Modelled from the spec: [create_document] of the [database] module, which
    is not among the sources. It is the generic create operation of the
    document store: the document is stored in the named collection under a
    new store-assigned identifier, whose text is returned. The identifier is
    the one of the running count [db_assigned]; it is new in a store that
    holds no document under an identifier yet to be assigned ([store_wf]
    below), and a statement that counts documents assumes that it is new. *)
Definition create_document_order (data : Order.t) : M string :=
  λ db, let oid := ObjectId_generate (db_assigned db) in
        (Ok (ObjectId_str oid),
         mk_Store (db_product db) (<[oid := data]> (db_order db))
           (N.succ (db_assigned db))).

(** Modelled from the spec: [create_document] of the [database] module, on
    the [product] collection. *)
Definition create_document_product (data : ProductSchema.t) : M string :=
  λ db, let oid := ObjectId_generate (db_assigned db) in
        (Ok (ObjectId_str oid),
         mk_Store (<[oid := ProductSchema.model_dump data]> (db_product db))
           (db_order db) (N.succ (db_assigned db))).

(** The documents [find_one] hands back: the stored fields behind [_id]. *)
Definition product_document (oid : ObjectId) (prod : Product.t) : Dict :=
  ("_id", VObjectId oid) ::
  match Product.title prod with Some s => [("title", VStr s)] | None => [] end ++
  [("description",
    match Product.description prod with Some s => VStr s | None => VNone end)] ++
  match Product.price prod with Some f => [("price", VFloat f)] | None => [] end ++
  match Product.category prod with Some s => [("category", VStr s)] | None => [] end ++
  [("image", match Product.image prod with Some s => VStr s | None => VNone end)] ++
  match Product.in_stock prod with Some b => [("in_stock", VBool b)] | None => [] end ++
  match Product.stock_qty prod with Some z => [("stock_qty", VInt z)] | None => [] end.

Definition order_document (oid : ObjectId) (o : Order.t) : Dict :=
  ("_id", VObjectId oid) :: Order.model_dump o.

(** ** main.py *)

Section Main.

(** [str(v)] for a float, a list or a dict: CPython's [repr], which the
    handlers never reach for a store-assigned [_id]. *)
Variable py_repr : value → string.

(** [EmailStr]: the address as normalised, [None] for a text that is not
    an address. *)
Variable EmailStr : string → option string.

(** [str(v)] *)
Definition py_str (v : value) : string :=
  match v with
  | VNone => "None"
  | VBool true => "True"
  | VBool false => "False"
  | VInt z => NilZero.string_of_int (Z.to_int z)
  | VStr s => s
  | VObjectId oid => ObjectId_str oid
  | VDatetime t => isoformat_sep " " t
  | VFloat _ | VList _ | VDict _ => py_repr v
  end.

(** One turn of the loop of [serialize_doc]. *)
Definition serialize_item (out : Dict) (kv : string * value) : Dict :=
  let (k, v) := kv in
  if String.eqb k "_id" then dict_set "id" (VStr (py_str v)) out
  else match v with
       | VDatetime t => dict_set k (VStr (isoformat t)) out
       | _ => dict_set k v out
       end.

(** [serialize_doc]: [None] and the empty dict are returned as they are. *)
Definition serialize_doc (doc : option Dict) : option Dict :=
  match doc with
  | None => None
  | Some [] => Some []
  | Some d => Some (fold_left serialize_item d [])
  end.

(** [GET /api/products/{product_id}] *)
Definition get_product (product_id : string) : M (option Dict) :=
  match ObjectId_new product_id with
  | None => raise (HTTPException 400 "Invalid product id")
  | Some oid =>
      let* doc := find_one_product oid in
      match doc with
      | None => raise (HTTPException 404 "Product not found")
      | Some prod => ret (serialize_doc (Some (product_document oid prod)))
      end
  end.

(** [OrderItemSchema(...)] and [OrderSchema(...)]: a model that fails its
    field constraints raises [ValidationError]. The address handed to
    [OrderSchema] is the one of the parsed request, in the normal form
    [EmailStr] gave it. *)
Definition OrderItemSchema (it : OrderItem.t) : M OrderItem.t :=
  if OrderItem.validate it then ret it else raise ValidationError.

Definition OrderSchema (o : Order.t) : M Order.t :=
  if Order.validate_fields o then ret o else raise ValidationError.

(** The body of [for item in order.items], on the two accumulators. *)
Definition validate_item (item : OrderItem.t)
    (acc : float * list OrderItem.t) : M (float * list OrderItem.t) :=
  let (computed_subtotal, sanitized_items) := acc in
  match ObjectId_new (OrderItem.product_id item) with
  | None =>
      raise (HTTPException 400
               ("Invalid product id: " +:+ OrderItem.product_id item))
  | Some oid =>
      let* found := find_one_product oid in
      match found with
      | None =>
          raise (HTTPException 404
                   ("Product not found: " +:+ OrderItem.product_id item))
      | Some prod =>
          if negb (default true (Product.in_stock prod))
             || (default 0 (Product.stock_qty prod) <? OrderItem.quantity item)
          then
            raise (HTTPException 400
                     ("Insufficient stock for "
                      +:+ default "product" (Product.title prod)))
          else
            let price := default fzero (Product.price prod) in
            match float_of_int (OrderItem.quantity item) with
            | None => raise OverflowError
            | Some quantity =>
                let computed_subtotal :=
                  fadd computed_subtotal (fmul price quantity) in
                let* it := OrderItemSchema
                  (OrderItem.mk (ObjectId_str oid)
                     (default "Product" (Product.title prod))
                     price
                     (OrderItem.quantity item)
                     (Product.image prod)) in
                ret (computed_subtotal, sanitized_items ++ [it])
            end
      end
  end.

Fixpoint validate_items (items : list OrderItem.t)
    (acc : float * list OrderItem.t) : M (float * list OrderItem.t) :=
  match items with
  | [] => ret acc
  | item :: rest =>
      let* acc' := validate_item item acc in
      validate_items rest acc'
  end.

(** [for it in sanitized_items: db["product"].update_one(...)] *)
Fixpoint decrement_stock (sanitized_items : list OrderItem.t) : M unit :=
  match sanitized_items with
  | [] => ret tt
  | it :: rest =>
      match ObjectId_new (OrderItem.product_id it) with
      | None => raise InvalidId
      | Some oid =>
          let* _ := update_one_product_inc oid (- OrderItem.quantity it) in
          decrement_stock rest
      end
  end.

(** The handler of [POST /api/orders]. *)
Definition create_order (order : Order.t) : M (option Dict) :=
  match Order.items order with
  | [] => raise (HTTPException 400 "No items in order")
  | _ =>
      let* acc := validate_items (Order.items order) (fzero, []) in
      let (computed_subtotal, sanitized_items) := acc in
      let shipping := float_or_zero (Order.shipping order) in
      let total := round2 (fadd computed_subtotal shipping) in
      let* order_doc := OrderSchema
        (Order.mk (Order.customer_name order)
           (Order.customer_email order)
           (Order.customer_address order)
           sanitized_items
           (round2 computed_subtotal)
           (round2 shipping)
           total
           "processing") in
      let* order_id := create_document_order order_doc in
      let* _ := decrement_stock sanitized_items in
      match ObjectId_new order_id with
      | None => raise InvalidId
      | Some oid =>
          let* created := find_one_order oid in
          ret (serialize_doc (order_document oid <$> created))
      end
  end.

(** Validation of a request body against [CreateOrderRequest], which adds
    nothing to [Order]: the parsed order, its address as [EmailStr]
    normalised it; [None] stands for the refusal of the body. *)
Definition CreateOrderRequest (body : Order.t) : option Order.t :=
  if Order.validate body then
    match EmailStr (Order.customer_email body) with
    | Some email =>
        Some (Order.mk (Order.customer_name body) email
                (Order.customer_address body) (Order.items body)
                (Order.subtotal body) (Order.shipping body)
                (Order.total body) (Order.status body))
    | None => None
    end
  else None.

(** The response to what a handler returns: the JSON encoder refuses a
    float that is infinite or NaN, and a value it has no encoding for, with
    [ValueError]; the writes of the handler stay. *)
Definition render (content : option Dict) : M (option Dict) :=
  if json_compliant_doc content then ret content else raise ValueError.

(** [POST /api/orders]: the body is validated before the handler runs, and
    what the handler returns is rendered. *)
Definition post_api_orders (body : Order.t) : M (option Dict) :=
  match CreateOrderRequest body with
  | None => raise RequestValidationError
  | Some order =>
      let* content := create_order order in
      render content
  end.

(** The handler of [POST /api/products]. *)
Definition create_product (payload : ProductSchema.t) : M (option Dict) :=
  let* new_id := create_document_product payload in
  match ObjectId_new new_id with
  | None => raise InvalidId
  | Some oid =>
      let* doc := find_one_product oid in
      ret (serialize_doc (product_document oid <$> doc))
  end.

(** [POST /api/products]: the body is validated against
    [CreateProductRequest], which adds nothing to [Product], and what the
    handler returns is rendered. *)
Definition post_api_products (payload : ProductSchema.t) : M (option Dict) :=
  if ProductSchema.validate payload then
    let* content := create_product payload in
    render content
  else raise RequestValidationError.

(** ** The workflow as functions of the store

    The outcome of the loop turn, of the whole loop and of the commit,
    written without the monad; the equations below relate them to the
    handlers. *)

(** The snapshot of a product taken for an order line. *)
Definition snapshot (oid : ObjectId) (prod : Product.t) (quantity : Z)
    : OrderItem.t :=
  OrderItem.mk (ObjectId_str oid) (default "Product" (Product.title prod))
    (default fzero (Product.price prod)) quantity (Product.image prod).

Definition in_stock_for (prod : Product.t) (quantity : Z) : bool :=
  default true (Product.in_stock prod)
  && negb (default 0 (Product.stock_qty prod) <? quantity).

Definition sanitize (db : Store) (item : OrderItem.t) : result OrderItem.t :=
  match ObjectId_new (OrderItem.product_id item) with
  | None => Raise (InvalidIdentifier (OrderItem.product_id item))
  | Some oid =>
      match db_product db !! oid with
      | None => Raise (ProductNotFound (OrderItem.product_id item))
      | Some prod =>
          if in_stock_for prod (OrderItem.quantity item) then
            match float_of_int (OrderItem.quantity item) with
            | None => Raise OverflowError
            | Some _ =>
                let it := snapshot oid prod (OrderItem.quantity item) in
                if OrderItem.validate it then Ok it
                else Raise ValidationError
            end
          else Raise (InsufficientStock
                        (default "product" (Product.title prod)))
      end
  end.

Fixpoint sanitize_all (db : Store) (items : list OrderItem.t)
    : result (list OrderItem.t) :=
  match items with
  | [] => Ok []
  | item :: rest =>
      match sanitize db item with
      | Raise e => Raise e
      | Ok it =>
          match sanitize_all db rest with
          | Raise e => Raise e
          | Ok its => Ok (it :: its)
          end
      end
  end.

(** [price * quantity] of a line, and the sum the loop accumulates, from
    the left. *)
Definition line_total (it : OrderItem.t) : float :=
  fmul (OrderItem.price it) (float_of_Z (OrderItem.quantity it)).

Definition add_line (acc : float) (it : OrderItem.t) : float :=
  fadd acc (line_total it).

Definition items_sum (its : list OrderItem.t) : float :=
  fold_left add_line its fzero.

(** The order document built from the request and the sanitized items. *)
Definition order_doc_of (order : Order.t) (its : list OrderItem.t)
    : Order.t :=
  Order.mk (Order.customer_name order) (Order.customer_email order)
    (Order.customer_address order) its
    (round2 (items_sum its))
    (round2 (float_or_zero (Order.shipping order)))
    (round2 (fadd (items_sum its) (float_or_zero (Order.shipping order))))
    "processing".

Definition decrement (products : gmap ObjectId Product.t)
    (it : OrderItem.t) : gmap ObjectId Product.t :=
  alter (inc_stock_qty (- OrderItem.quantity it)) (OrderItem.product_id it)
    products.

(** The store with [order_doc_of order its] inserted, before the
    decrements. *)
Definition inserted (order : Order.t) (its : list OrderItem.t)
    (db : Store) : Store :=
  mk_Store (db_product db)
    (<[ObjectId_generate (db_assigned db) := order_doc_of order its]>
       (db_order db))
    (N.succ (db_assigned db)).

(** The store after the commit of [order_doc_of order its]. *)
Definition committed (order : Order.t) (its : list OrderItem.t)
    (db : Store) : Store :=
  mk_Store (fold_left decrement its (db_product db))
    (<[ObjectId_generate (db_assigned db) := order_doc_of order its]>
       (db_order db))
    (N.succ (db_assigned db)).

(** The quantity a request orders of the product [oid], over all its
    items. *)
Definition references (oid : ObjectId) (item : OrderItem.t) : bool :=
  bool_decide (ObjectId_new (OrderItem.product_id item) = Some oid).

Definition ordered_quantity (oid : ObjectId) (items : list OrderItem.t) : Z :=
  foldr (λ item n, if references oid item then OrderItem.quantity item + n
                   else n) 0 items.

(** What [serialize_doc] makes of one field, by the serialization rule. *)
Definition serialized_field (kv : string * value) : string * value :=
  let (k, v) := kv in
  if String.eqb k "_id" then ("id", VStr (py_str v))
  else match v with
       | VDatetime t => (k, VStr (isoformat t))
       | _ => (k, v)
       end.

(** A lowercase hexadecimal digit. *)
Definition canonical_char (c : ascii) : bool :=
  is_hex c && Ascii.eqb (hex_lower c) c.

(** A line under the text of a twelve-byte identifier. *)
Definition twelve_bytes (it : OrderItem.t) : bool :=
  (String.length (OrderItem.product_id it) =? 24)%nat.

(** The quantity a list of sanitized lines takes from the product [oid]. *)
Definition quantity_of (oid : ObjectId) (its : list OrderItem.t) : Z :=
  foldr (λ it n, if bool_decide (OrderItem.product_id it = oid)
                 then OrderItem.quantity it + n else n) 0 its.

(** Two requested items that name the same product and quantity, whatever
    price, title and image the client sent with them. *)
Definition same_line (a b : OrderItem.t) : Prop :=
  OrderItem.product_id a = OrderItem.product_id b
  ∧ OrderItem.quantity a = OrderItem.quantity b.

(** Two requests that differ at most in the price, title and image of their
    items. *)
Definition same_but_item_details (order1 order2 : Order.t) : Prop :=
  Order.customer_name order1 = Order.customer_name order2
  ∧ Order.customer_email order1 = Order.customer_email order2
  ∧ Order.customer_address order1 = Order.customer_address order2
  ∧ Forall2 same_line (Order.items order1) (Order.items order2)
  ∧ Order.subtotal order1 = Order.subtotal order2
  ∧ Order.shipping order1 = Order.shipping order2
  ∧ Order.total order1 = Order.total order2
  ∧ Order.status order1 = Order.status order2.

(** Two requests that differ at most in their subtotal, total and status. *)
Definition same_but_totals (order1 order2 : Order.t) : Prop :=
  Order.customer_name order1 = Order.customer_name order2
  ∧ Order.customer_email order1 = Order.customer_email order2
  ∧ Order.customer_address order1 = Order.customer_address order2
  ∧ Order.items order1 = Order.items order2
  ∧ Order.shipping order1 = Order.shipping order2.

(** The key [serialize_doc] stores a field under. *)
Definition serialized_key (k : string) : string :=
  if String.eqb k "_id" then "id" else k.




(** The exceptions raised before any write: the refusals of the handler and
    of the validation of a body or of a model. [InvalidId] in the decrement
    loop and [ValueError] in the rendering of the response come after the
    order is stored. *)
Definition raised_before_write (e : exn) : Prop :=
  match e with
  | HTTPException _ _ | RequestValidationError | ValidationError
  | OverflowError => True
  | InvalidId | ValueError => False
  end.


(** A store that holds no document under an identifier it has yet to
    assign: those of the counts from [db_assigned] on, of which there are
    16^24 in all. The empty store is one, and the handlers keep it so. *)
Definition store_wf (db : Store) : Prop :=
  ∀ k, (db_assigned db ≤ k < 16 ^ 24)%N →
       db_product db !! ObjectId_generate k = None
       ∧ db_order db !! ObjectId_generate k = None.

Definition empty_db : Store := mk_Store ∅ ∅ 0.


(** What a requested item needs to pass the loop turn of [create_order]. *)
Definition orderable (db : Store) (item : OrderItem.t) : Prop :=
  ∃ oid prod,
    ObjectId_new (OrderItem.product_id item) = Some oid
    ∧ db_product db !! oid = Some prod
    ∧ default true (Product.in_stock prod) = true
    ∧ 1 ≤ OrderItem.quantity item
    ∧ OrderItem.quantity item ≤ default 0 (Product.stock_qty prod)
    ∧ is_Some (float_of_int (OrderItem.quantity item))
    ∧ fleb fzero (default fzero (Product.price prod)) = true.

(** ** A catalog to run the handlers on *)

(** [repr] is never reached on the documents below, whose [_id] is an
    [ObjectId]. *)
Definition no_repr : value → string := λ _, "".

(** A validator to run the endpoints with, in the place of [EmailStr], with
    which it agrees on the address of the catalog: it accepts one [@] after
    a label of lowercase letters and before two such labels or more, joined
    by dots, and returns the address as it is. *)
Definition is_lower (c : ascii) : bool :=
  let n := N_of_ascii c in ((97 <=? n) && (n <=? 122))%N.

(** [part] is 0 in the local part, 1 in the first label of the domain and 2
    in the later ones; [fresh] tells that the current label is still
    empty. *)
Fixpoint plain_scan (part : nat) (fresh : bool) (s : string) : bool :=
  match s with
  | EmptyString => (part =? 2)%nat && negb fresh
  | String c s' =>
      if is_lower c then plain_scan part false s'
      else if fresh then false
      else if Ascii.eqb c "@" then (part =? 0)%nat && plain_scan 1 true s'
      else if Ascii.eqb c "." then (0 <? part)%nat && plain_scan 2 true s'
      else false
  end.

Definition plain_email (s : string) : option string :=
  if plain_scan 0 true s then Some s else None.

Definition tee_id : ObjectId := "64b7f3a2c1d4e5f60718293a".

Definition absent_id : ObjectId := "64b7f3a2c1d4e5f60718293b".

(** The product of the specification's example: price 19.99, stock 100. *)
Definition tee : Product.t :=
  Product.mk (Some "Classic Tee") (Some "Soft cotton t-shirt")
    (Some (decimal 1999 100)) (Some "Apparel") None (Some true) (Some 100).

Definition tee_db : Store := mk_Store {[ tee_id := tee ]} ∅ 0.

(** The same catalog with a price of 0.004. *)
Definition mill : Product.t :=
  Product.mk (Some "Washer") None (Some (decimal 4 1000)) (Some "Parts") None
    (Some true) (Some 100).

Definition mill_db : Store := mk_Store {[ tee_id := mill ]} ∅ 0.

(** A requested item, with the price, title and image a client may leave
    blank, and a request. *)
Definition line (product_id : string) (quantity : Z) : OrderItem.t :=
  OrderItem.mk product_id "" fzero quantity None.

Definition request (items : list OrderItem.t) (shipping : float) : Order.t :=
  Order.mk "Ada" "ada@example.com" "1 Main St" items fzero shipping fzero "".

(** Three tees, shipping 5.00, the identifier written in capitals. *)
Definition tee_order : Order.t :=
  request [line "64B7F3A2C1D4E5F60718293A" 3] (float_of_Z 5).

(** The same request with a price, title and image of the client's. *)
Definition tee_order_tampered : Order.t :=
  request [OrderItem.mk "64B7F3A2C1D4E5F60718293A" "Free Tee" (decimal 1 100)
             3 (Some "http://example.com/x.png")] (float_of_Z 5).

(** The same request with a subtotal, total and status of the client's. *)
Definition tee_order_totals : Order.t :=
  Order.mk "Ada" "ada@example.com" "1 Main St"
    [line "64B7F3A2C1D4E5F60718293A" 3]
    (decimal 1 100) (float_of_Z 5) (decimal 1 100) "delivered".

(** What the store holds afterwards: subtotal 59.97, total 64.97, stock 97. *)
Definition tee_stored : Order.t :=
  Order.mk "Ada" "ada@example.com" "1 Main St"
    [OrderItem.mk tee_id "Classic Tee" (decimal 1999 100) 3 None]
    (decimal 5997 100) (float_of_Z 5) (decimal 6497 100) "processing".

Definition tee_db' : Store :=
  mk_Store {[ tee_id := inc_stock_qty (-3) tee ]}
    {[ ObjectId_generate 0 := tee_stored ]} 1.

Definition tee_response : option Dict :=
  Some (("id", VStr "000000000000000000000000") :: Order.model_dump tee_stored).

(** One washer at 0.004, shipping 0.004. *)
Definition mill_order : Order.t := request [line tee_id 1] (decimal 4 1000).

Definition mill_stored : Order.t :=
  Order.mk "Ada" "ada@example.com" "1 Main St"
    [OrderItem.mk tee_id "Washer" (decimal 4 1000) 1 None]
    fzero fzero (decimal 1 100) "processing".

Definition mill_db' : Store :=
  mk_Store {[ tee_id := inc_stock_qty (-1) mill ]}
    {[ ObjectId_generate 0 := mill_stored ]} 1.

(** A catalog with a sticker at 1.00, and one sticker ordered with a shipping
    cost of 0.005. *)
Definition sticker : Product.t :=
  Product.mk (Some "Sticker") None (Some (float_of_Z 1)) (Some "Paper") None
    (Some true) (Some 100).

Definition sticker_db : Store := mk_Store {[ tee_id := sticker ]} ∅ 0.

Definition sticker_order : Order.t :=
  request [line tee_id 1] (decimal 5 1000).

Definition sticker_stored : Order.t :=
  Order.mk "Ada" "ada@example.com" "1 Main St"
    [OrderItem.mk tee_id "Sticker" (float_of_Z 1) 1 None]
    (float_of_Z 1) (decimal 1 100) (float_of_Z 1) "processing".

Definition sticker_db' : Store :=
  mk_Store {[ tee_id := inc_stock_qty (-1) sticker ]}
    {[ ObjectId_generate 0 := sticker_stored ]} 1.

(** The same tee on two lines of one request. *)
Definition twice_order : Order.t :=
  request [line tee_id 1; line tee_id 1] fzero.

Definition twice_stored : Order.t :=
  Order.mk "Ada" "ada@example.com" "1 Main St"
    [OrderItem.mk tee_id "Classic Tee" (decimal 1999 100) 1 None;
     OrderItem.mk tee_id "Classic Tee" (decimal 1999 100) 1 None]
    (decimal 3998 100) fzero (decimal 3998 100) "processing".

Definition twice_db' : Store :=
  mk_Store {[ tee_id := inc_stock_qty (-2) tee ]}
    {[ ObjectId_generate 0 := twice_stored ]} 1.

(** A malformed identifier in front of a line that orders more tees than the
    stock holds, and in front of a line for a product that does not exist. *)
Definition malformed_then_short : Order.t :=
  request [line "nope" 1; line tee_id 101] fzero.

Definition malformed_then_absent : Order.t :=
  request [line "nope" 1; line absent_id 1] fzero.

Definition short_order : Order.t := request [line tee_id 101] fzero.
Definition absent_order : Order.t := request [line absent_id 1] fzero.
Definition empty_order : Order.t := request [] fzero.


(** A stored document with a timestamp. *)
Definition stamped : Dict :=
  [ ("_id", VObjectId tee_id);
    ("title", VStr "Classic Tee");
    ("created_at", VDatetime (mk_datetime 2024 3 5 7 8 9 0));
    ("stock_qty", VInt 100) ].

(** A payload for [POST /api/products], and one with a negative price. *)
Definition jacket : ProductSchema.t :=
  ProductSchema.mk "Denim Jacket" (Some "All-season denim jacket")
    (float_of_Z 59) "Apparel" None true 40.


(** The identifier the store assigns first, and two jackets ordered under
    it. *)
Definition first_id : ObjectId := "000000000000000000000000".

Definition jacket_order : Order.t := request [line first_id 2] fzero.


(** More tees than an order of three leaves. *)
Definition second_order : Order.t := request [line tee_id 98] fzero.

(** An anvil at 1e308, and ten of them ordered: the line total is beyond
    the largest float. *)
Definition anvil : Product.t :=
  Product.mk (Some "Anvil") None (Some (float_of_Z (10 ^ 308))) (Some "Tools")
    None (Some true) (Some 100).

Definition anvil_db : Store := mk_Store {[ tee_id := anvil ]} ∅ 0.

Definition anvil_order : Order.t := request [line tee_id 10] fzero.

Definition anvil_stored : Order.t :=
  Order.mk "Ada" "ada@example.com" "1 Main St"
    [OrderItem.mk tee_id "Anvil" (float_of_Z (10 ^ 308)) 10 None]
    (S754_infinity false) fzero (S754_infinity false) "processing".

Definition anvil_db' : Store :=
  mk_Store {[ tee_id := inc_stock_qty (-10) anvil ]}
    {[ ObjectId_generate 0 := anvil_stored ]} 1.

(** A document that holds an [id] field besides its [_id]. *)
Definition clash : Dict := [ ("_id", VObjectId tee_id); ("id", VInt 7) ].

(** ** Identifiers *)

Lemma canonical_char_spec (c : ascii) :
  canonical_char c = true →
  is_space c = false ∧ is_hex c = true ∧ hex_lower c = c.
Proof.
  destruct c as [[] [] [] [] [] [] [] []]; vm_compute; intuition congruence.
Qed.

Lemma hex_lower_canonical (c : ascii) :
  is_hex c = true → canonical_char (hex_lower c) = true.
Proof.
  destruct c as [[] [] [] [] [] [] [] []]; vm_compute; intuition congruence.
Qed.

(** The digits [bytes.fromhex] returns are lowercase hexadecimal digits. *)
Lemma fromhex_canonical (s bytes : string) :
  fromhex s = Some bytes → string_forallb canonical_char bytes = true.
Proof.
  remember (String.length s) as n eqn:Hn.
  revert s bytes Hn. induction n as [n IH] using lt_wf_ind.
  intros [|c s'] bytes Hn; simpl; [by intros [= <-]|].
  destruct (is_space c).
  { apply (IH (String.length s')); [simpl in Hn; lia|done]. }
  destruct (is_hex c) eqn:Hc; [|done].
  destruct s' as [|c' s'']; [done|].
  destruct (is_hex c') eqn:Hc'; [|done].
  destruct (fromhex s'') as [bytes'|] eqn:Hs''; [|done].
  intros [= <-]. simpl.
  rewrite !hex_lower_canonical by done. simpl.
  apply (IH (String.length s'') ltac:(simpl in Hn; lia) s''); done.
Qed.

(** A string of an even number of lowercase hexadecimal digits is read as
    itself. *)
Lemma fromhex_of_canonical (n : nat) (s : string) :
  String.length s = (2 * n)%nat →
  string_forallb canonical_char s = true →
  fromhex s = Some s.
Proof.
  revert s. induction n as [|n IH]; intros s Hlen Hs.
  { by destruct s. }
  destruct s as [|c [|c' s'']]; simpl in Hlen; try lia.
  simpl in Hs.
  apply andb_prop in Hs as [Hc [Hc' Hs'']%andb_prop].
  apply canonical_char_spec in Hc as (Hsp & Hhex & Hlow).
  apply canonical_char_spec in Hc' as (_ & Hhex' & Hlow').
  simpl. rewrite Hsp, Hhex, Hhex', Hlow, Hlow'.
  by rewrite (IH s'') by (done || lia).
Qed.

Lemma ObjectId_new_canonical (s : string) :
  string_forallb canonical_char s = true →
  ObjectId_new s = if (String.length s =? 24)%nat then Some s else None.
Proof.
  intros Hs. unfold ObjectId_new.
  destruct (String.length s =? 24)%nat eqn:Hlen; [|done].
  apply Nat.eqb_eq in Hlen. by apply (fromhex_of_canonical 12).
Qed.

Lemma ObjectId_new_digits (s : string) (oid : ObjectId) :
  ObjectId_new s = Some oid → string_forallb canonical_char oid = true.
Proof.
  unfold ObjectId_new. destruct (_ =? _)%nat; [|done].
  apply fromhex_canonical.
Qed.

Lemma digit_char_canonical (d : N) :
  (d < 16)%N → canonical_char (digit_char d) = true.
Proof.
  intros Hd.
  assert (H : forallb (λ n, canonical_char (digit_char (N.of_nat n)))
                (seq 0 16) = true) by (vm_compute; reflexivity).
  rewrite forallb_forall in H.
  specialize (H (N.to_nat d)). rewrite N2Nat.id in H.
  apply H, in_seq. lia.
Qed.

Lemma digits_length (b : N) (w : nat) (n : N) (acc : string) :
  String.length (digits b w n acc) = (w + String.length acc)%nat.
Proof.
  revert n acc. induction w as [|w IH]; intros n acc; simpl; [done|].
  rewrite IH. simpl. lia.
Qed.

Lemma digits_canonical (w : nat) (n : N) (acc : string) :
  string_forallb canonical_char acc = true →
  string_forallb canonical_char (digits 16 w n acc) = true.
Proof.
  revert n acc. induction w as [|w IH]; intros n acc Hacc; simpl; [done|].
  apply IH. simpl. rewrite Hacc, digit_char_canonical; [done|].
  apply N.mod_upper_bound. done.
Qed.

(** The identifiers the store assigns are identifiers. *)
Lemma ObjectId_generate_new (n : N) :
  ObjectId_new (ObjectId_str (ObjectId_generate n))
  = Some (ObjectId_generate n).
Proof.
  unfold ObjectId_str, ObjectId_generate.
  rewrite ObjectId_new_canonical by by apply digits_canonical.
  rewrite digits_length.
  change (24 + String.length "" =? 24)%nat with true. done.
Qed.

(** ** The loop over the requested items *)

Lemma float_of_int_Some (z : Z) (f : float) :
  float_of_int z = Some f → f = float_of_Z z.
Proof.
  unfold float_of_int. destruct (float_of_Z z); congruence.
Qed.

(** One turn of the loop reads the store and leaves it as it is; its outcome
    is that of [sanitize], added to the accumulators. *)
Lemma validate_item_eq (item : OrderItem.t) (acc : float * list OrderItem.t)
    (db : Store) :
  validate_item item acc db =
  (match sanitize db item with
   | Ok it => Ok (add_line acc.1 it, acc.2 ++ [it])
   | Raise e => Raise e
   end, db).
Proof.
  destruct acc as [cs si].
  unfold validate_item, sanitize, in_stock_for, bind, find_one_product, raise,
    InvalidIdentifier, ProductNotFound, InsufficientStock.
  destruct (ObjectId_new (OrderItem.product_id item)) as [oid|]; [|done].
  destruct (db_product db !! oid) as [prod|]; [|done].
  destruct (default true (Product.in_stock prod)); simpl;
    [|done].
  destruct (default 0 (Product.stock_qty prod) <? OrderItem.quantity item);
    simpl; [done|].
  destruct (float_of_int (OrderItem.quantity item)) as [q|] eqn:Hq; [|done].
  apply float_of_int_Some in Hq as ->.
  unfold OrderItemSchema, snapshot.
  destruct (OrderItem.validate _); done.
Qed.

Lemma validate_items_eq (items : list OrderItem.t)
    (acc : float * list OrderItem.t) (db : Store) :
  validate_items items acc db =
  (match sanitize_all db items with
   | Ok its => Ok (fold_left add_line its acc.1, acc.2 ++ its)
   | Raise e => Raise e
   end, db).
Proof.
  revert acc. induction items as [|item rest IH]; intros acc; simpl.
  - unfold ret. rewrite app_nil_r. by destruct acc.
  - unfold bind. rewrite validate_item_eq.
    destruct (sanitize db item) as [it|e]; [|done].
    rewrite IH. simpl.
    destruct (sanitize_all db rest) as [its|e]; [|done].
    by rewrite <- app_assoc.
Qed.

Lemma sanitize_all_app (db : Store) (pre post : list OrderItem.t) :
  sanitize_all db (pre ++ post) =
  match sanitize_all db pre with
  | Raise e => Raise e
  | Ok its =>
      match sanitize_all db post with
      | Raise e => Raise e
      | Ok its' => Ok (its ++ its')
      end
  end.
Proof.
  induction pre as [|item pre IH]; simpl.
  - by destruct (sanitize_all db post).
  - destruct (sanitize db item) as [it|e]; [|done].
    rewrite IH. destruct (sanitize_all db pre) as [its|e]; [|done].
    by destruct (sanitize_all db post).
Qed.

(** The loop fails at the first item that [sanitize] refuses. *)
Lemma sanitize_all_Raise (db : Store) (items : list OrderItem.t) (e : exn) :
  sanitize_all db items = Raise e ↔
  ∃ pre item post its,
    items = pre ++ item :: post
    ∧ sanitize_all db pre = Ok its
    ∧ sanitize db item = Raise e.
Proof.
  split.
  - induction items as [|item rest IH]; simpl; [done|].
    destruct (sanitize db item) as [it|e'] eqn:Hs.
    + destruct (sanitize_all db rest) as [its|e'] eqn:Hr; [done|].
      intros [= ->]. destruct (IH eq_refl) as (pre & x & post & its & -> & Hp & Hx).
      exists (item :: pre), x, post, (it :: its). simpl.
      by rewrite Hs, Hp.
    + intros [= ->]. by exists [], item, rest, [].
  - intros (pre & item & post & its & -> & Hp & Hx).
    rewrite sanitize_all_app, Hp. simpl. by rewrite Hx.
Qed.

(** Item by item, the sanitized items are what [sanitize] returns. *)
Lemma sanitize_all_Ok (db : Store) (items its : list OrderItem.t) :
  sanitize_all db items = Ok its ↔
  Forall2 (λ item it, sanitize db item = Ok it) items its.
Proof.
  revert its. induction items as [|item rest IH]; intros its; simpl.
  - split; [intros [= <-]; constructor|by inversion 1].
  - split.
    + destruct (sanitize db item) as [it|] eqn:Hs; [|done].
      destruct (sanitize_all db rest) as [its'|] eqn:Hr; [|done].
      intros [= <-]. constructor; [done|]. by apply IH.
    + inversion 1 as [|? it ? its' Hs Hr]; subst.
      apply IH in Hr. by rewrite Hs, Hr.
Qed.

(** What an accepted item says of its product. *)
Lemma sanitize_Ok (db : Store) (item it : OrderItem.t) :
  sanitize db item = Ok it ↔
  ∃ oid prod,
    ObjectId_new (OrderItem.product_id item) = Some oid
    ∧ db_product db !! oid = Some prod
    ∧ in_stock_for prod (OrderItem.quantity item) = true
    ∧ is_Some (float_of_int (OrderItem.quantity item))
    ∧ OrderItem.validate it = true
    ∧ it = snapshot oid prod (OrderItem.quantity item).
Proof.
  unfold sanitize. split.
  - destruct (ObjectId_new _) as [oid|] eqn:Hoid; [|done].
    destruct (db_product db !! oid) as [prod|] eqn:Hprod; [|done].
    destruct (in_stock_for _ _) eqn:Hstock; [|done].
    destruct (float_of_int _) as [q|] eqn:Hq; [|done].
    destruct (OrderItem.validate _) eqn:Hv; [|done].
    intros [= <-]. exists oid, prod. repeat split; eauto.
  - intros (oid & prod & -> & -> & -> & [q ->] & Hv & ->). by rewrite Hv.
Qed.

(** A sanitized line is under the text of the identifier its item was read
    as. *)
Lemma sanitize_product_id (db : Store) (item it : OrderItem.t) :
  sanitize db item = Ok it →
  ObjectId_new (OrderItem.product_id item) = Some (OrderItem.product_id it)
  ∧ string_forallb canonical_char (OrderItem.product_id it) = true
  ∧ OrderItem.quantity it = OrderItem.quantity item.
Proof.
  intros (oid & prod & Hoid & _ & _ & _ & _ & ->)%sanitize_Ok. simpl.
  split_and!; [done| |done]. by eapply ObjectId_new_digits.
Qed.

(** ** The commit *)

Lemma decrement_stock_eq (its : list OrderItem.t) (db : Store) :
  Forall (λ it, ObjectId_new (OrderItem.product_id it)
                = Some (OrderItem.product_id it)) its →
  decrement_stock its db =
  (Ok tt, mk_Store (fold_left decrement its (db_product db))
            (db_order db) (db_assigned db)).
Proof.
  intros Hits. revert db.
  induction Hits as [|it its Hit _ IH]; intros db; simpl.
  - by destruct db.
  - rewrite Hit. unfold bind, update_one_product_inc. by rewrite IH.
Qed.

Lemma sanitize_all_digits (db : Store) (items its : list OrderItem.t) :
  sanitize_all db items = Ok its →
  Forall (λ it, string_forallb canonical_char (OrderItem.product_id it)
                = true) its.
Proof.
  intros H%sanitize_all_Ok.
  induction H as [|item it items its Hs _ IH]; constructor; [|done].
  by apply sanitize_product_id in Hs as (_ & ? & _).
Qed.

Lemma twelve_bytes_product_ids (its : list OrderItem.t) :
  Forall (λ it, string_forallb canonical_char (OrderItem.product_id it)
                = true) its →
  forallb twelve_bytes its = true →
  Forall (λ it, ObjectId_new (OrderItem.product_id it)
                = Some (OrderItem.product_id it)) its.
Proof.
  induction 1 as [|it its Hit _ IH]; simpl; [constructor|].
  intros [Hlen Hrest]%andb_prop. constructor; [|by apply IH].
  rewrite ObjectId_new_canonical by done. unfold twelve_bytes in Hlen.
  by rewrite Hlen.
Qed.

(** The decrements stop, with [InvalidId], at a line whose text is not that
    of a twelve-byte identifier. *)
Lemma decrement_stock_digits (its : list OrderItem.t) (db : Store) :
  Forall (λ it, string_forallb canonical_char (OrderItem.product_id it)
                = true) its →
  decrement_stock its db =
  if forallb twelve_bytes its
  then (Ok tt, mk_Store (fold_left decrement its (db_product db))
                 (db_order db) (db_assigned db))
  else (Raise InvalidId, (decrement_stock its db).2).
Proof.
  intros Hits.
  destruct (forallb twelve_bytes its) eqn:Hall.
  { by apply decrement_stock_eq, twelve_bytes_product_ids. }
  revert db. induction Hits as [|it its Hit _ IH]; intros db; [done|].
  simpl in Hall. simpl. rewrite ObjectId_new_canonical by done.
  unfold twelve_bytes in Hall at 1.
  destruct (String.length (OrderItem.product_id it) =? 24)%nat; [|done].
  simpl in Hall. unfold bind, update_one_product_inc.
  by rewrite (IH Hall).
Qed.

(** [create_order] as a function of the request and the store: the request
    is refused with the store untouched, or the order document is stored and
    the stock of every line decremented, the decrements stopping at a line
    under an identifier that is not of twelve bytes. *)
Lemma create_order_eq (order : Order.t) (db : Store) :
  create_order order db =
  match Order.items order with
  | [] => (Raise EmptyOrder, db)
  | _ =>
      match sanitize_all db (Order.items order) with
      | Raise e => (Raise e, db)
      | Ok its =>
          if Order.validate_fields (order_doc_of order its)
          then if forallb twelve_bytes its
               then (Ok (serialize_doc
                           (Some (order_document
                                    (ObjectId_generate (db_assigned db))
                                    (order_doc_of order its)))),
                     committed order its db)
               else (Raise InvalidId,
                     (decrement_stock its (inserted order its db)).2)
          else (Raise ValidationError, db)
      end
  end.
Proof.
  unfold create_order.
  destruct (Order.items order) as [|item rest] eqn:Hitems; [done|].
  rewrite <- Hitems. clear item rest Hitems.
  unfold bind at 1. rewrite validate_items_eq. simpl.
  destruct (sanitize_all db (Order.items order)) as [its|e] eqn:Hs; [|done].
  fold (items_sum its). unfold bind at 1, OrderSchema.
  fold (order_doc_of order its).
  destruct (Order.validate_fields (order_doc_of order its)); [|done].
  unfold ret at 1, bind at 1, create_document_order.
  fold (inserted order its db). unfold bind at 1.
  rewrite decrement_stock_digits by eauto using sanitize_all_digits.
  destruct (forallb twelve_bytes its); [|done].
  rewrite ObjectId_generate_new.
  unfold bind, find_one_order, ret, committed, inserted. simpl.
  by rewrite lookup_insert_eq.
Qed.

Lemma fold_decrement_unreferenced (its : list OrderItem.t)
    (products : gmap ObjectId Product.t) (oid : ObjectId) :
  Forall (λ it, OrderItem.product_id it ≠ oid) its →
  fold_left decrement its products !! oid = products !! oid.
Proof.
  intros H. revert products.
  induction H as [|it its Hit _ IH]; intros products; [done|].
  simpl. rewrite IH. unfold decrement. by rewrite lookup_alter_ne.
Qed.

Lemma fold_decrement_Some (its : list OrderItem.t)
    (products : gmap ObjectId Product.t) (oid : ObjectId) (prod : Product.t) :
  products !! oid = Some prod →
  ∃ prod',
    fold_left decrement its products !! oid = Some prod'
    ∧ default 0 (Product.stock_qty prod')
      = default 0 (Product.stock_qty prod) - quantity_of oid its
    ∧ (Exists (λ it, OrderItem.product_id it = oid) its →
       Product.stock_qty prod'
       = Some (default 0 (Product.stock_qty prod) - quantity_of oid its))
    ∧ Product.title prod' = Product.title prod
    ∧ Product.description prod' = Product.description prod
    ∧ Product.price prod' = Product.price prod
    ∧ Product.category prod' = Product.category prod
    ∧ Product.image prod' = Product.image prod
    ∧ Product.in_stock prod' = Product.in_stock prod.
Proof.
  revert products prod.
  induction its as [|it its IH]; intros products prod Hprod; simpl.
  - exists prod. split_and!; try done; [lia|]. by intros ?%Exists_nil.
  - unfold decrement at 2. case_bool_decide as Hid.
    + subst oid.
      destruct (IH (alter (inc_stock_qty (- OrderItem.quantity it))
                      (OrderItem.product_id it) products)
                   (inc_stock_qty (- OrderItem.quantity it) prod))
        as (prod' & Hl & Hq & Hex & Hrest).
      { by rewrite lookup_alter_eq, Hprod. }
      exists prod'. split; [done|]. simpl in Hq. split; [lia|].
      split; [|done]. intros _.
      destruct (decide (Exists (λ it', OrderItem.product_id it'
                                        = OrderItem.product_id it) its))
        as [He|Hne].
      * rewrite (Hex He). simpl. f_equal. lia.
      * apply not_Exists_Forall in Hne; [|intros ?; apply _].
        rewrite fold_decrement_unreferenced in Hl.
        2:{ eapply Forall_impl; [exact Hne|]. simpl. naive_solver. }
        rewrite lookup_alter_eq, Hprod in Hl. injection Hl as <-.
        simpl. f_equal. simpl in Hq. lia.
    + destruct (IH (alter (inc_stock_qty (- OrderItem.quantity it))
                      (OrderItem.product_id it) products) prod)
        as (prod' & Hl & Hq & Hex & Hrest).
      { by rewrite lookup_alter_ne. }
      exists prod'. split_and!; try done.
      * intros He. apply Hex. by inversion He.
      * apply Hrest.
      * apply Hrest.
      * apply Hrest.
      * apply Hrest.
      * apply Hrest.
      * apply Hrest.
Qed.

(** The lines of an accepted request order what its items order. *)
Lemma quantity_of_sanitized (db : Store) (items its : list OrderItem.t)
    (oid : ObjectId) :
  sanitize_all db items = Ok its →
  quantity_of oid its = ordered_quantity oid items.
Proof.
  intros H%sanitize_all_Ok.
  induction H as [|item it items its Hs _ IH]; simpl; [done|].
  apply sanitize_product_id in Hs as (Hnew & _ & ->). rewrite IH.
  unfold references. rewrite Hnew.
  repeat case_bool_decide; simplify_eq; done.
Qed.

Lemma sanitize_all_In (db : Store) (items its : list OrderItem.t)
    (item : OrderItem.t) :
  sanitize_all db items = Ok its → In item items →
  ∃ it, sanitize db item = Ok it.
Proof.
  intros H%sanitize_all_Ok Hin.
  induction H as [|item' it items its Hs _ IH]; [done|].
  destruct Hin as [->|Hin]; eauto.
Qed.

Lemma ordered_quantity_app (oid : ObjectId) (pre post : list OrderItem.t) :
  ordered_quantity oid (pre ++ post)
  = ordered_quantity oid pre + ordered_quantity oid post.
Proof.
  induction pre as [|item pre IH]; simpl; [done|].
  rewrite IH. destruct (references oid item); lia.
Qed.

Lemma ordered_quantity_unreferenced (oid : ObjectId)
    (items : list OrderItem.t) :
  Forall (λ item, references oid item = false) items →
  ordered_quantity oid items = 0.
Proof.
  induction 1 as [|item items Hitem _ IH]; simpl; [done|].
  by rewrite Hitem.
Qed.

Lemma ordered_quantity_referenced (db : Store) (oid : ObjectId)
    (items its : list OrderItem.t) (item : OrderItem.t) :
  sanitize_all db items = Ok its →
  In item items → references oid item = true →
  Exists (λ it, OrderItem.product_id it = oid) its.
Proof.
  intros H%sanitize_all_Ok Hin Href.
  induction H as [|item' it items its Hs _ IH]; [done|].
  destruct Hin as [->|Hin]; [|by right; apply IH].
  left. apply sanitize_product_id in Hs as (Hnew & _ & _).
  unfold references in Href. apply bool_decide_eq_true in Href. congruence.
Qed.

(** ** Outcomes of [create_order] *)

Lemma create_order_Ok (order : Order.t) (db db' : Store) (d : option Dict) :
  create_order order db = (Ok d, db') →
  ∃ its,
    sanitize_all db (Order.items order) = Ok its
    ∧ Order.validate_fields (order_doc_of order its) = true
    ∧ db' = committed order its db
    ∧ d = serialize_doc
            (Some (order_document (ObjectId_generate (db_assigned db))
                     (order_doc_of order its))).
Proof.
  rewrite create_order_eq.
  destruct (Order.items order) as [|item rest]; [done|].
  destruct (sanitize_all db (item :: rest)) as [its|e]; [|done].
  destruct (Order.validate_fields _) eqn:Hv; [|done].
  destruct (forallb twelve_bytes its); [|done].
  intros [= <- <-]. by exists its.
Qed.

(** The lines of an accepted order are under twelve-byte identifiers. *)
Lemma create_order_Ok_ids (order : Order.t) (db db' : Store)
    (d : option Dict) (its : list OrderItem.t) :
  create_order order db = (Ok d, db') →
  sanitize_all db (Order.items order) = Ok its →
  Forall (λ it, ObjectId_new (OrderItem.product_id it)
                = Some (OrderItem.product_id it)) its.
Proof.
  rewrite create_order_eq. intros H Hs. rewrite Hs in H.
  destruct (Order.items order) as [|item rest]; [done|].
  destruct (Order.validate_fields _); [|done].
  destruct (forallb twelve_bytes its) eqn:Hall; [|done].
  eauto using twelve_bytes_product_ids, sanitize_all_digits.
Qed.

(** A failure is a refusal before any write, or the [InvalidId] of a
    decrement. *)
Lemma create_order_Raise (order : Order.t) (db db' : Store) (e : exn) :
  create_order order db = (Raise e, db') →
  e = InvalidId
  ∨ db' = db
    ∧ (Order.items order = [] ∧ e = EmptyOrder
       ∨ Order.items order ≠ []
         ∧ sanitize_all db (Order.items order) = Raise e
       ∨ ∃ its, sanitize_all db (Order.items order) = Ok its
                ∧ Order.validate_fields (order_doc_of order its) = false
                ∧ e = ValidationError).
Proof.
  rewrite create_order_eq.
  destruct (Order.items order) as [|item rest].
  { intros [= <- <-]. right. split; [done|]. by left. }
  destruct (sanitize_all db (item :: rest)) as [its|e'].
  - destruct (Order.validate_fields _) eqn:Hv.
    + destruct (forallb twelve_bytes its); [done|]. intros [= <- <-].
      by left.
    + intros [= <- <-]. right. split; [done|]. right. right. by exists its.
  - intros [= <- <-]. right. split; [done|]. right. by left.
Qed.

(** The order stored by an accepted request. *)
Lemma committed_order (order : Order.t) (its : list OrderItem.t) (db : Store) :
  db_order (committed order its db) !! ObjectId_generate (db_assigned db)
  = Some (order_doc_of order its).
Proof. unfold committed. simpl. by rewrite lookup_insert_eq. Qed.

(** A float that is [>= 0] equals itself, which NaN does not. *)
Lemma feqb_refl (x : float) : fleb fzero x = true → feqb x x = true.
Proof.
  unfold feqb, SFeqb, fleb, SFleb.
  destruct x as [s|s|  |s m e]; simpl; try done.
  - by destruct s.
  - intros _. rewrite Z.compare_refl, Pos.compare_cont_refl. by destruct s.
Qed.

(** ** Refusals *)

Lemma in_stock_for_false (prod : Product.t) (quantity : Z) :
  in_stock_for prod quantity = false ↔
  default true (Product.in_stock prod) = false
  ∨ default 0 (Product.stock_qty prod) < quantity.
Proof.
  unfold in_stock_for. rewrite andb_false_iff, negb_false_iff, Z.ltb_lt. done.
Qed.

Lemma sanitize_InsufficientStock (db : Store) (item : OrderItem.t)
    (T : string) :
  sanitize db item = Raise (InsufficientStock T) ↔
  ∃ oid prod,
    ObjectId_new (OrderItem.product_id item) = Some oid
    ∧ db_product db !! oid = Some prod
    ∧ in_stock_for prod (OrderItem.quantity item) = false
    ∧ T = default "product" (Product.title prod).
Proof.
  unfold sanitize, InvalidIdentifier, ProductNotFound, InsufficientStock.
  split.
  - destruct (ObjectId_new _) as [oid|] eqn:Hoid.
    2:{ intros H. by injection H. }
    destruct (db_product db !! oid) as [prod|] eqn:Hprod; [|done].
    destruct (in_stock_for _ _) eqn:Hstock.
    + destruct (float_of_int _); [|done].
      by destruct (OrderItem.validate _).
    + intros H. injection H as H.
      change (default "product" (Product.title prod) = T) in H. subst T.
      by exists oid, prod.
  - by intros (oid & prod & -> & -> & -> & ->).
Qed.


Lemma sanitize_ProductNotFound (db : Store) (item : OrderItem.t)
    (oid : ObjectId) :
  ObjectId_new (OrderItem.product_id item) = Some oid →
  db_product db !! oid = None →
  sanitize db item = Raise (ProductNotFound (OrderItem.product_id item)).
Proof. unfold sanitize. by intros -> ->. Qed.

(** The items before an item pass validation exactly when [sanitize_all]
    accepts them, whatever the accumulators. *)
Lemma validate_items_Ok (db : Store) (pre : list OrderItem.t) :
  (∃ acc, validate_items pre (fzero, []) db = (Ok acc, db)) ↔
  ∃ its, sanitize_all db pre = Ok its.
Proof.
  rewrite validate_items_eq. split.
  - intros [acc H]. destruct (sanitize_all db pre) as [its|]; [|done].
    by exists its.
  - intros [its ->]. eauto.
Qed.

(** The request fails with the error of its first refused item, and writes
    nothing. *)
Lemma create_order_first_refused (order : Order.t) (db : Store)
    (pre post : list OrderItem.t) (item : OrderItem.t) (e : exn) :
  Order.items order = pre ++ item :: post →
  (∃ acc, validate_items pre (fzero, []) db = (Ok acc, db)) →
  sanitize db item = Raise e →
  create_order order db = (Raise e, db).
Proof.
  intros Hitems [its Hpre]%validate_items_Ok Hitem.
  rewrite create_order_eq, Hitems.
  assert (sanitize_all db (pre ++ item :: post) = Raise e) as ->.
  { apply sanitize_all_Raise. by exists pre, item, post, its. }
  by destruct pre.
Qed.

(** A failure of [create_order] other than [InvalidId], which only the
    decrement loop raises, writes nothing to the store. *)
Lemma create_order_Raise_store (order : Order.t) (db : Store) (e : exn) :
  (create_order order db).1 = Raise e → e ≠ InvalidId →
  (create_order order db).2 = db.
Proof.
  destruct (create_order order db) as [r db'] eqn:H. simpl. intros -> He.
  by apply create_order_Raise in H as [->|[-> _]].
Qed.

(** ** Requests that differ in what the handler does not read *)

Lemma sanitize_same_line (db : Store) (a b : OrderItem.t) :
  same_line a b → sanitize db a = sanitize db b.
Proof. unfold sanitize. by intros [-> ->]. Qed.

Lemma sanitize_all_same_line (db : Store) (l1 l2 : list OrderItem.t) :
  Forall2 same_line l1 l2 → sanitize_all db l1 = sanitize_all db l2.
Proof.
  induction 1 as [|a b l1 l2 Hab _ IH]; simpl; [done|].
  by rewrite (sanitize_same_line db a b Hab), IH.
Qed.

Lemma create_order_ext (order1 order2 : Order.t) (db : Store) :
  Order.customer_name order1 = Order.customer_name order2 →
  Order.customer_email order1 = Order.customer_email order2 →
  Order.customer_address order1 = Order.customer_address order2 →
  Forall2 same_line (Order.items order1) (Order.items order2) →
  Order.shipping order1 = Order.shipping order2 →
  create_order order1 db = create_order order2 db.
Proof.
  intros Hn He Ha Hi Hs. rewrite !create_order_eq.
  rewrite (sanitize_all_same_line db _ _ Hi).
  assert (Hdoc : ∀ its, order_doc_of order1 its = order_doc_of order2 its).
  { intros its. unfold order_doc_of. by rewrite Hn, He, Ha, Hs. }
  assert (Hcom : ∀ its, committed order1 its db = committed order2 its db).
  { intros its. unfold committed. by rewrite Hdoc. }
  assert (Hins : ∀ its, inserted order1 its db = inserted order2 its db).
  { intros its. unfold inserted. by rewrite Hdoc. }
  destruct Hi as [|a b l1 l2 Hab Hl]; [done|].
  destruct (sanitize_all db (b :: l2)) as [its|e]; [|done].
  by rewrite Hdoc, Hcom, Hins.
Qed.

Lemma same_line_refl (l : list OrderItem.t) : Forall2 same_line l l.
Proof. induction l; constructor; done. Qed.

(** ** Serialization *)

Lemma dict_set_fresh (k : string) (v : value) (out : Dict) :
  k ∉ keys out → dict_set k v out = out ++ [(k, v)].
Proof.
  induction out as [|[k' v'] out IH]; simpl; [done|].
  intros [Hk Hout]%not_elem_of_cons.
  destruct (String.eqb_spec k' k) as [->|_]; [done|]. by rewrite IH.
Qed.

Lemma serialized_field_key (kv : string * value) :
  (serialized_field kv).1 = serialized_key kv.1.
Proof.
  destruct kv as [k v]. unfold serialized_field, serialized_key. simpl.
  destruct (String.eqb k "_id"); [done|]. by destruct v.
Qed.

Lemma serialize_item_fresh (out : Dict) (kv : string * value) :
  serialized_key kv.1 ∉ keys out →
  serialize_item out kv = out ++ [serialized_field kv].
Proof.
  rewrite <- serialized_field_key. destruct kv as [k v].
  unfold serialize_item, serialized_field.
  destruct (String.eqb k "_id"); simpl; [apply dict_set_fresh|].
  destruct v; apply dict_set_fresh.
Qed.

Lemma fold_serialize_item (d out : Dict) :
  NoDup (keys out ++ map serialized_key (keys d)) →
  fold_left serialize_item d out = out ++ map serialized_field d.
Proof.
  revert out. induction d as [|kv d IH]; intros out Hnd; simpl.
  - by rewrite app_nil_r.
  - simpl in Hnd. rewrite serialize_item_fresh.
    + rewrite IH, <- app_assoc; [done|].
      unfold keys in *. rewrite map_app. simpl.
      rewrite serialized_field_key, <- app_assoc. done.
    + apply NoDup_app in Hnd as (_ & Hnd & _). intros Hin.
      apply (Hnd _ Hin). left.
Qed.

Lemma serialized_key_inj (k1 k2 : string) :
  k1 ≠ "id" → k2 ≠ "id" → serialized_key k1 = serialized_key k2 → k1 = k2.
Proof.
  unfold serialized_key.
  destruct (String.eqb_spec k1 "_id"), (String.eqb_spec k2 "_id"); congruence.
Qed.

Lemma serialized_keys_NoDup (ks : list string) :
  NoDup ks → "id" ∉ ks → NoDup (map serialized_key ks).
Proof.
  induction 1 as [|k ks Hk _ IH]; simpl; [constructor|].
  intros [Hne Hid]%not_elem_of_cons. constructor; [|by apply IH].
  intros (k' & Heq & Hin)%list_elem_of_fmap.
  apply serialized_key_inj in Heq; [by subst| |]; [done|].
  intros ->. done.
Qed.

(** The documents the handlers serialize have distinct keys, none of them
    [id]. *)
Lemma order_document_keys (oid : ObjectId) (o : Order.t) :
  NoDup (keys (order_document oid o)) ∧ "id" ∉ keys (order_document oid o).
Proof.
  unfold order_document, Order.model_dump, keys. simpl.
  split; compute_done.
Qed.

Lemma product_document_keys (oid : ObjectId) (prod : Product.t) :
  NoDup (keys (product_document oid prod))
  ∧ "id" ∉ keys (product_document oid prod).
Proof.
  destruct prod as [[?|] ? [?|] [?|] ? [?|] [?|]];
    unfold product_document, keys; simpl; (split; compute_done).
Qed.

(** What the handlers return for a stored order and a stored product. *)
Lemma serialize_order_document (oid : ObjectId) (o : Order.t) :
  serialize_doc (Some (order_document oid o))
  = Some (("id", VStr (ObjectId_str oid)) :: Order.model_dump o).
Proof.
  destruct (order_document_keys oid o) as [Hnd Hid].
  unfold serialize_doc, order_document in *.
  rewrite fold_serialize_item; [done|].
  by apply (serialized_keys_NoDup (keys (("_id", VObjectId oid)
                                           :: Order.model_dump o))).
Qed.

Lemma serialize_product_document (oid : ObjectId) (prod : Product.t) :
  serialize_doc (Some (product_document oid prod))
  = Some (("id", VStr (ObjectId_str oid)) :: tail (product_document oid prod)).
Proof.
  destruct (product_document_keys oid prod) as [Hnd Hid].
  unfold serialize_doc. unfold product_document in *.
  rewrite fold_serialize_item.
  - by destruct prod as [[?|] [?|] [?|] [?|] [?|] [?|] [?|]].
  - by apply (serialized_keys_NoDup
                (keys (("_id", VObjectId oid) :: _))).
Qed.

(** ** The claims *)

(** C1 (amended). For every accepted order, the stored order has
    [subtotal = round(sum, 2)], [shipping = round(shipping_in, 2)] and
    [total = round(sum + shipping_in, 2)], where [sum] is the unrounded sum,
    from the left, of unit price times quantity over the order's items and
    [shipping_in] is the shipping cost of the request: the total is rounded
    from the unrounded sum and the unrounded shipping cost, not from the two
    stored, rounded values. The equalities also hold for Python's [==]. *)
Theorem order_totals (order : Order.t) (db db' : Store) (d : option Dict)
    (Hok : create_order order db = (Ok d, db')) :
  ∃ o,
    db_order db' !! ObjectId_generate (db_assigned db) = Some o
    ∧ Order.subtotal o = round2 (items_sum (Order.items o))
    ∧ Order.shipping o = round2 (float_or_zero (Order.shipping order))
    ∧ Order.total o
      = round2 (fadd (items_sum (Order.items o))
                  (float_or_zero (Order.shipping order)))
    ∧ feqb (Order.subtotal o) (round2 (items_sum (Order.items o))) = true
    ∧ feqb (Order.total o)
        (round2 (fadd (items_sum (Order.items o))
                   (float_or_zero (Order.shipping order)))) = true.
Proof.
  apply create_order_Ok in Hok as (its & _ & Hv & -> & _).
  exists (order_doc_of order its). rewrite committed_order.
  unfold Order.validate_fields in Hv.
  apply andb_prop in Hv as [[Hsub _]%andb_prop Htot].
  split_and!; try done; by apply feqb_refl.
Qed.

(** C2 (amended). After an accepted order, a product referenced by a
    requested item, with stored stock [S], has stock exactly [S] minus the
    sum of the quantities of all the requested items that reference it; that
    is [S - Q] when the item, of quantity [Q <= S], is the only one that
    references the product. Its other fields are unchanged. *)
Theorem stock_after_order (order : Order.t) (db db' : Store) (d : option Dict)
    (item : OrderItem.t) (oid : ObjectId) (prod : Product.t) (stock : Z)
    (Hok : create_order order db = (Ok d, db'))
    (Hitem : In item (Order.items order))
    (Hoid : ObjectId_new (OrderItem.product_id item) = Some oid)
    (Hprod : db_product db !! oid = Some prod)
    (Hstock : Product.stock_qty prod = Some stock) :
  OrderItem.quantity item ≤ stock
  ∧ ∃ prod',
      db_product db' !! oid = Some prod'
      ∧ Product.stock_qty prod'
        = Some (stock - ordered_quantity oid (Order.items order))
      ∧ (∀ pre post,
           Order.items order = pre ++ item :: post →
           Forall (λ other, references oid other = false) (pre ++ post) →
           Product.stock_qty prod' = Some (stock - OrderItem.quantity item))
      ∧ Product.title prod' = Product.title prod
      ∧ Product.price prod' = Product.price prod
      ∧ Product.image prod' = Product.image prod
      ∧ Product.in_stock prod' = Product.in_stock prod.
Proof.
  apply create_order_Ok in Hok as (its & Hs & _ & -> & _).
  assert (Href : references oid item = true) by by apply bool_decide_eq_true.
  split.
  - destruct (sanitize_all_In _ _ _ _ Hs Hitem) as [it Hit].
    apply sanitize_Ok in Hit as (oid' & prod' & Hoid' & Hprod' & Hin & _).
    rewrite Hoid in Hoid'. injection Hoid' as <-.
    rewrite Hprod in Hprod'. injection Hprod' as <-.
    unfold in_stock_for in Hin. rewrite Hstock in Hin. simpl in Hin.
    apply andb_prop in Hin as [_ Hin%negb_true_iff]. lia.
  - destruct (fold_decrement_Some its (db_product db) oid prod Hprod)
      as (prod' & Hl & _ & Hex & Ht & _ & Hp & _ & Hi & Hs').
    exists prod'. simpl. split; [done|].
    rewrite (quantity_of_sanitized _ _ _ _ Hs), Hstock in Hex. simpl in Hex.
    rewrite Hex by eauto using ordered_quantity_referenced.
    split_and!; try done.
    intros pre post -> [Hpre Hpost]%Forall_app.
    rewrite ordered_quantity_app. simpl. rewrite Href.
    rewrite !ordered_quantity_unreferenced by done. f_equal. lia.
Qed.

(** C3 (amended). The order-placement operation fails with
    [InsufficientStock] naming the title [T] if and only if the first
    requested item that does not pass validation references a product of
    title [T] that is not in stock or has less stock than the item orders
    (every item before it having passed); a request whose earlier item fails
    reports that item's error instead. On that failure the store, and so
    every product's stock, is unchanged. *)
Theorem insufficient_stock_iff (order : Order.t) (db : Store) (T : string) :
  ((create_order order db).1 = Raise (InsufficientStock T) ↔
   ∃ pre item post acc oid prod,
     Order.items order = pre ++ item :: post
     ∧ validate_items pre (fzero, []) db = (Ok acc, db)
     ∧ ObjectId_new (OrderItem.product_id item) = Some oid
     ∧ db_product db !! oid = Some prod
     ∧ (default true (Product.in_stock prod) = false
        ∨ default 0 (Product.stock_qty prod) < OrderItem.quantity item)
     ∧ T = default "product" (Product.title prod))
  ∧ ((create_order order db).1 = Raise (InsufficientStock T) →
     (create_order order db).2 = db).
Proof.
  split; [|by intros H; apply (create_order_Raise_store _ _ _ H)]. split.
  - destruct (create_order order db) as [r db'] eqn:H. simpl. intros ->.
    apply create_order_Raise
      in H as [He|[-> [[_ He]|[[_ Hs]|(its & _ & _ & He)]]]]; [done| | |].
    + by vm_compute in He.
    + apply sanitize_all_Raise in Hs as (pre & item & post & its & Hi & Hp & Hr).
      apply sanitize_InsufficientStock in Hr as (oid & prod & ? & ? & Hst & ?).
      apply in_stock_for_false in Hst.
      destruct (proj2 (validate_items_Ok db pre)) as [acc Hacc]; [eauto|].
      by exists pre, item, post, acc, oid, prod.
    + done.
  - intros (pre & item & post & acc & oid & prod & Hi & Hp & Ho & Hl & Hst & ->).
    erewrite create_order_first_refused; eauto.
    apply sanitize_InsufficientStock. exists oid, prod.
    by rewrite in_stock_for_false.
Qed.

(** C4. For every accepted order, each sanitized line carries the price,
    title and image of the product record its item references, as the store
    holds them when the item is validated (a missing title reads ["Product"],
    a missing price [0]); and a request that differs only in the price, title
    and image its items carry has the very same outcome: the same stored
    order, items and totals, and the same store. *)
Theorem items_from_catalog (order order2 : Order.t) (db db' : Store)
    (d : option Dict)
    (Hok : create_order order db = (Ok d, db'))
    (Hsame : same_but_item_details order order2) :
  create_order order2 db = (Ok d, db')
  ∧ ∃ o,
      db_order db' !! ObjectId_generate (db_assigned db) = Some o
      ∧ Forall2
          (λ item it,
             ∃ oid prod,
               ObjectId_new (OrderItem.product_id item) = Some oid
               ∧ db_product db !! oid = Some prod
               ∧ OrderItem.product_id it = ObjectId_str oid
               ∧ OrderItem.price it = default fzero (Product.price prod)
               ∧ OrderItem.title it = default "Product" (Product.title prod)
               ∧ OrderItem.image it = Product.image prod
               ∧ OrderItem.quantity it = OrderItem.quantity item)
          (Order.items order) (Order.items o).
Proof.
  destruct Hsame as (Hn & He & Ha & Hi & _ & Hs & _).
  split; [by rewrite <- (create_order_ext order order2)|].
  apply create_order_Ok in Hok as (its & Hall & _ & -> & _).
  exists (order_doc_of order its). rewrite committed_order.
  split; [done|]. simpl. apply sanitize_all_Ok in Hall.
  eapply Forall2_impl; [exact Hall|]. simpl.
  intros item it (oid & prod & ? & ? & _ & _ & _ & ->)%sanitize_Ok.
  by exists oid, prod.
Qed.

(** C5. A request with an empty item list fails with [EmptyOrder], the first
    check of the handler, and the store is left as it was: no order document
    and no stock decrement. *)
Theorem empty_order_rejected (order : Order.t) (db : Store)
    (Hempty : Order.items order = []) :
  create_order order db = (Raise EmptyOrder, db).
Proof. unfold create_order. by rewrite Hempty. Qed.

(** C6 (amended). A request containing a well-formed product identifier that
    matches no product record fails and writes nothing to the store. It fails
    with the error of its first refused item, which is that item or one
    before it: with [ProductNotFound] naming that identifier when every item
    before it passes validation, and with the error of the first refused
    item otherwise. *)
Theorem unknown_product_rejected (order : Order.t) (db : Store)
    (pre post : list OrderItem.t) (item : OrderItem.t) (oid : ObjectId)
    (Hitems : Order.items order = pre ++ item :: post)
    (Hoid : ObjectId_new (OrderItem.product_id item) = Some oid)
    (Hnone : db_product db !! oid = None) :
  (∃ pre' item' post' e,
     Order.items order = pre' ++ item' :: post'
     ∧ (length pre' ≤ length pre)%nat
     ∧ (∃ acc, validate_items pre' (fzero, []) db = (Ok acc, db))
     ∧ (∀ acc, (validate_item item' acc db).1 = Raise e)
     ∧ create_order order db = (Raise e, db))
  ∧ ((∃ acc, validate_items pre (fzero, []) db = (Ok acc, db)) →
     create_order order db
     = (Raise (ProductNotFound (OrderItem.product_id item)), db)).
Proof.
  pose proof (sanitize_ProductNotFound db item oid Hoid Hnone) as Hs.
  split; [|intros Hpre; by eapply create_order_first_refused].
  destruct (sanitize_all db (Order.items order)) as [its|e] eqn:Hall.
  { destruct (sanitize_all_In db _ its item Hall) as [it Hit]; [|congruence].
    rewrite Hitems. apply in_app_iff. right. by left. }
  apply sanitize_all_Raise in Hall
    as (pre' & item' & post' & its & Hitems' & Hpre' & Hitem').
  assert (Hacc : ∃ acc, validate_items pre' (fzero, []) db = (Ok acc, db)).
  { apply validate_items_Ok. eauto. }
  exists pre', item', post', e. split_and!; [done| |done| |].
  - destruct (decide (length pre' ≤ length pre)%nat) as [|Hlt]; [done|].
    assert (Hin : In item pre').
    { apply list_elem_of_In, (list_elem_of_lookup_2 _ (length pre)).
      rewrite <- (lookup_app_l pre' (item' :: post')) by lia.
      rewrite <- Hitems', Hitems. apply list_lookup_middle. done. }
    destruct (sanitize_all_In db _ its item Hpre' Hin) as [it Hit].
    congruence.
  - intros acc. by rewrite validate_item_eq, Hitem'.
  - by eapply create_order_first_refused.
Qed.


(** ** The endpoints around the handlers *)



(** The endpoint on a body that passes validation: the outcome of the
    handler, but for a content that cannot be rendered. *)
Lemma post_api_orders_eq (body order : Order.t) (db : Store) :
  CreateOrderRequest body = Some order →
  post_api_orders body db =
  match create_order order db with
  | (Ok content, db') =>
      if json_compliant_doc content then (Ok content, db')
      else (Raise ValueError, db')
  | (Raise e, db') => (Raise e, db')
  end.
Proof.
  intros H. unfold post_api_orders, bind, render. rewrite H.
  destruct (create_order order db) as [[content|e] db']; [|done].
  by destruct (json_compliant_doc content).
Qed.


Lemma post_api_products_eq (payload : ProductSchema.t) (db : Store) :
  post_api_products payload db =
  if ProductSchema.validate payload then
    match create_product payload db with
    | (Ok content, db') =>
        if json_compliant_doc content then (Ok content, db')
        else (Raise ValueError, db')
    | (Raise e, db') => (Raise e, db')
    end
  else (Raise RequestValidationError, db).
Proof.
  unfold post_api_products, bind, render.
  destruct (ProductSchema.validate payload); [|done].
  destruct (create_product payload db) as [[content|e] db']; [|done].
  by destruct (json_compliant_doc content).
Qed.


(** C9. For every document with distinct keys none of which is [id], as are
    the product and order documents the API returns, [serialize_doc] keeps
    the fields in their order, stores the [_id] field under [id] with its
    value turned into a string, replaces a date/time value by its ISO text
    and leaves every other key and value as they are. *)
Theorem serialize_doc_fields (d : Dict)
    (Hkeys : NoDup (keys d)) (Hid : "id" ∉ keys d) :
  serialize_doc (Some d) = Some (map serialized_field d)
  ∧ (∀ k v, (k, v) ∈ d → k = "_id" →
       ("id", VStr (py_str v)) ∈ map serialized_field d)
  ∧ (∀ k t, (k, VDatetime t) ∈ d → k ≠ "_id" →
       (k, VStr (isoformat t)) ∈ map serialized_field d)
  ∧ (∀ k v, (k, v) ∈ d → k ≠ "_id" → (∀ t, v ≠ VDatetime t) →
       (k, v) ∈ map serialized_field d).
Proof.
  split_and!.
  - unfold serialize_doc. destruct d as [|kv d]; [done|].
    rewrite fold_serialize_item; [done|]. simpl.
    by apply (serialized_keys_NoDup (keys (kv :: d))).
  - intros k v Hin ->. apply list_elem_of_fmap. by exists ("_id", v).
  - intros k t Hin Hk. apply list_elem_of_fmap. exists (k, VDatetime t).
    split; [|done]. unfold serialized_field.
    by destruct (String.eqb_spec k "_id").
  - intros k v Hin Hk Hv. apply list_elem_of_fmap. exists (k, v).
    split; [|done]. unfold serialized_field.
    destruct (String.eqb_spec k "_id"); [done|].
    destruct v; try done. by destruct (Hv t).
Qed.

(** C10. [create_order] does not read the subtotal, total and status of the
    request: two requests that differ only in them have the same outcome,
    stored order and store included; and the stored order of an accepted
    request has status ["processing"], the subtotal computed from the catalog
    prices and the total computed from that sum and the shipping cost. *)
Theorem client_totals_ignored (order order2 : Order.t) (db : Store)
    (Hsame : same_but_totals order order2) :
  create_order order db = create_order order2 db
  ∧ ∀ d db',
      create_order order db = (Ok d, db') →
      ∃ o,
        db_order db' !! ObjectId_generate (db_assigned db) = Some o
        ∧ db_order (create_order order2 db).2
            !! ObjectId_generate (db_assigned db) = Some o
        ∧ Order.status o = "processing"
        ∧ Order.subtotal o = round2 (items_sum (Order.items o))
        ∧ Order.total o
          = round2 (fadd (items_sum (Order.items o))
                      (float_or_zero (Order.shipping order))).
Proof.
  destruct Hsame as (Hn & He & Ha & Hi & Hs).
  assert (Heq : create_order order db = create_order order2 db).
  { apply create_order_ext; try done. rewrite Hi. apply same_line_refl. }
  split; [done|]. intros d db' Hok. rewrite <- Heq, Hok. simpl.
  apply create_order_Ok in Hok as (its & _ & _ & -> & _).
  exists (order_doc_of order its). by rewrite committed_order.
Qed.

(** ** Signs of floats *)

















(** ** More on serialization *)

Lemma dict_set_keys (k : string) (v : value) (out : Dict) (k' : string) :
  k' ∈ keys (dict_set k v out) ↔ k' = k ∨ k' ∈ keys out.
Proof.
  clear py_repr EmailStr.
  induction out as [|[k0 v0] out IH]; simpl.
  - rewrite list_elem_of_singleton. split; [by left|].
    by intros [?|?%elem_of_nil].
  - destruct (String.eqb_spec k0 k) as [->|Hne]; simpl.
    + rewrite !elem_of_cons. naive_solver.
    + rewrite !elem_of_cons, IH. naive_solver.
Qed.

Lemma dict_set_NoDup (k : string) (v : value) (out : Dict) :
  NoDup (keys out) → NoDup (keys (dict_set k v out)).
Proof.
  clear py_repr EmailStr.
  induction out as [|[k0 v0] out IH]; simpl.
  - intros _. apply NoDup_singleton.
  - intros [Hk0 Hout]%NoDup_cons.
    destruct (String.eqb_spec k0 k) as [->|Hne]; simpl.
    + by apply NoDup_cons.
    + apply NoDup_cons. split; [|by apply IH].
      rewrite dict_set_keys. by intros [?|?].
Qed.

Lemma dict_set_elem (k : string) (v : value) (out : Dict)
    (kv : string * value) :
  kv ∈ dict_set k v out → kv = (k, v) ∨ kv ∈ out.
Proof.
  clear py_repr EmailStr.
  induction out as [|[k0 v0] out IH]; simpl.
  - rewrite list_elem_of_singleton. by left.
  - destruct (String.eqb_spec k0 k) as [->|Hne]; rewrite !elem_of_cons.
    + naive_solver.
    + naive_solver.
Qed.

Lemma dict_set_elem_same (k : string) (v : value) (out : Dict) :
  (k, v) ∈ dict_set k v out.
Proof.
  induction out as [|[k0 v0] out IH]; simpl.
  - by apply list_elem_of_singleton.
  - destruct (String.eqb_spec k0 k) as [->|Hne]; rewrite elem_of_cons; eauto.
Qed.

Lemma dict_set_elem_other (k : string) (v : value) (out : Dict)
    (kv : string * value) :
  kv.1 ≠ k → kv ∈ out → kv ∈ dict_set k v out.
Proof.
  intros Hne. induction out as [|[k0 v0] out IH]; simpl.
  { by intros ?%elem_of_nil. }
  destruct (String.eqb_spec k0 k) as [->|Hne']; rewrite !elem_of_cons.
  - intros [->|?]; [done|by right].
  - intros [->|?]; [by left|right; by apply IH].
Qed.

(** A turn of the loop is an assignment of the serialized field. *)
Lemma serialize_item_dict_set (out : Dict) (kv : string * value) :
  serialize_item out kv
  = dict_set (serialized_field kv).1 (serialized_field kv).2 out.
Proof.
  destruct kv as [k v]. unfold serialize_item, serialized_field.
  destruct (String.eqb k "_id"); [done|]. by destruct v.
Qed.

Lemma serialized_key_not_id (k : string) : serialized_key k ≠ "_id".
Proof.
  unfold serialized_key. by destruct (String.eqb_spec k "_id").
Qed.

Lemma serialized_field_no_datetime (kv : string * value) (t : datetime) :
  (serialized_field kv).2 ≠ VDatetime t.
Proof.
  destruct kv as [k v]. unfold serialized_field.
  destruct (String.eqb k "_id"); [done|]. by destruct v.
Qed.

Lemma fold_serialize_item_spec (d out : Dict) :
  NoDup (keys out) →
  "_id" ∉ keys out →
  (∀ k t, (k, VDatetime t) ∉ out) →
  NoDup (keys (fold_left serialize_item d out))
  ∧ ("_id" ∉ keys (fold_left serialize_item d out))
  ∧ (∀ k t, (k, VDatetime t) ∉ fold_left serialize_item d out)
  ∧ (∀ k, k ∈ keys (fold_left serialize_item d out) ↔
          (k ∈ keys out ∨ ∃ k', k' ∈ keys d ∧ serialized_key k' = k)).
Proof.
  clear EmailStr.
  revert out. induction d as [|kv d IH]; intros out Hnd Hid Hdt; simpl.
  - split_and!; try done. intros k. split; [by left|].
    intros [?|(k' & []%elem_of_nil & _)]. done.
  - destruct (IH (serialize_item out kv)) as (H1 & H2 & H3 & H4).
    + rewrite serialize_item_dict_set. by apply dict_set_NoDup.
    + rewrite serialize_item_dict_set, dict_set_keys, serialized_field_key.
      intros [H|H]; [|done]. by apply (serialized_key_not_id kv.1).
    + intros k t. rewrite serialize_item_dict_set.
      intros [H|H]%dict_set_elem; [|by apply (Hdt k t)].
      injection H as _ H. by apply (serialized_field_no_datetime kv t).
    + split_and!; try done. intros k. rewrite H4.
      rewrite serialize_item_dict_set, dict_set_keys, serialized_field_key.
      unfold keys at 3. simpl. setoid_rewrite elem_of_cons.
      naive_solver.
Qed.

Lemma fold_serialize_item_keeps (d out : Dict) (kv : string * value) :
  kv ∈ out →
  (∀ kv', kv' ∈ d → serialized_key kv'.1 ≠ kv.1) →
  kv ∈ fold_left serialize_item d out.
Proof.
  revert out. induction d as [|kv' d IH]; intros out Hin Hne; simpl; [done|].
  apply IH.
  - rewrite serialize_item_dict_set. apply dict_set_elem_other; [|done].
    rewrite serialized_field_key. intros Heq.
    apply (Hne kv'); [by left|done].
  - intros kv'' Hin'. apply Hne. by right.
Qed.

Lemma fold_serialize_item_app (d1 d2 out : Dict) :
  fold_left serialize_item (d1 ++ d2) out
  = fold_left serialize_item d2 (fold_left serialize_item d1 out).
Proof. apply fold_left_app. Qed.

Lemma NoDup_keys_unique (d : Dict) (k : string) (v1 v2 : value) :
  NoDup (keys d) → (k, v1) ∈ d → (k, v2) ∈ d → v1 = v2.
Proof.
  induction d as [|[k0 v0] d IH]; simpl; [by intros _ ?%elem_of_nil|].
  intros [Hk0 Hd]%NoDup_cons [H1|H1]%elem_of_cons [H2|H2]%elem_of_cons.
  - congruence.
  - injection H1 as -> ->. destruct Hk0.
    apply list_elem_of_fmap. by exists (k0, v2).
  - injection H2 as -> ->. destruct Hk0.
    apply list_elem_of_fmap. by exists (k0, v1).
  - by apply IH.
Qed.

Lemma serialize_doc_Some (d : Dict) :
  serialize_doc (Some d) = Some (fold_left serialize_item d []).
Proof. by destruct d. Qed.

(** The loop of [serialize_doc] from the empty dict. *)
Lemma fold_serialize_item_nil (d : Dict) :
  NoDup (keys (fold_left serialize_item d []))
  ∧ ("_id" ∉ keys (fold_left serialize_item d []))
  ∧ (∀ k t, (k, VDatetime t) ∉ fold_left serialize_item d [])
  ∧ (∀ k, k ∈ keys (fold_left serialize_item d []) ↔
          ∃ k', k' ∈ keys d ∧ serialized_key k' = k).
Proof.
  destruct (fold_serialize_item_spec d []) as (H1 & H2 & H3 & H4);
    try (by apply NoDup_nil); try (by intros; apply not_elem_of_nil).
  split_and!; try done. intros k. rewrite H4. split; [|by right].
  intros [[]%elem_of_nil|H]. done.
Qed.

(** X1. Whatever the dict, the serialized document has distinct keys, no
    [_id] key and no date/time value, and its keys are exactly the input's
    keys with [_id] renamed to [id]. *)
Theorem serialize_doc_keys (d : Dict) :
  ∃ out,
    serialize_doc (Some d) = Some out
    ∧ NoDup (keys out)
    ∧ ("_id" ∉ keys out)
    ∧ (∀ k t, (k, VDatetime t) ∉ out)
    ∧ (∀ k, k ∈ keys out ↔ ∃ k', k' ∈ keys d ∧ serialized_key k' = k).
Proof.
  exists (fold_left serialize_item d []). rewrite serialize_doc_Some.
  split; [done|]. apply fold_serialize_item_nil.
Qed.

(** X2. Serializing a serialized document changes nothing. *)
Theorem serialize_doc_idempotent (doc : option Dict) :
  serialize_doc (serialize_doc doc) = serialize_doc doc.
Proof.
  destruct doc as [d|]; [|done].
  rewrite serialize_doc_Some.
  destruct (fold_serialize_item_nil d) as (Hnd & Hid & Hdt & _).
  set (out := fold_left serialize_item d []) in *.
  rewrite serialize_doc_Some. f_equal.
  assert (Hfield : ∀ kv, kv ∈ out → serialized_field kv = kv).
  { intros [k v] Hin. unfold serialized_field.
    destruct (String.eqb_spec k "_id") as [->|_].
    - destruct Hid. apply list_elem_of_fmap. by exists ("_id", v).
    - destruct v; try done. by destruct (Hdt k t). }
  assert (Hkey : map serialized_key (keys out) = keys out).
  { unfold keys. rewrite map_map. apply map_ext_in.
    intros kv Hin%list_elem_of_In.
    by rewrite <- serialized_field_key, (Hfield kv Hin). }
  rewrite fold_serialize_item by (simpl; by rewrite Hkey). simpl.
  rewrite <- (map_id out) at 2. apply map_ext_in.
  intros kv Hin%list_elem_of_In. by apply Hfield.
Qed.

(** X3. When several fields of the input are stored under one key, the last
    of them is the one the serialized document holds: of an [_id] and an
    [id] field, the later one survives and the other is lost. *)
Theorem serialize_doc_last_wins (pre post : Dict) (kv : string * value)
    (Hlast : ∀ kv', kv' ∈ post → serialized_key kv'.1 ≠ serialized_key kv.1) :
  ∃ out,
    serialize_doc (Some (pre ++ kv :: post)) = Some out
    ∧ serialized_field kv ∈ out
    ∧ ∀ v, (serialized_key kv.1, v) ∈ out → v = (serialized_field kv).2.
Proof.
  destruct (fold_serialize_item_nil (pre ++ kv :: post)) as (Hnd & _).
  exists (fold_left serialize_item (pre ++ kv :: post) []).
  split; [by rewrite serialize_doc_Some|].
  assert (Hin : serialized_field kv
                ∈ fold_left serialize_item (pre ++ kv :: post) []).
  { rewrite fold_serialize_item_app. simpl.
    apply fold_serialize_item_keeps.
    - rewrite serialize_item_dict_set.
      destruct (serialized_field kv) as [k v]. apply dict_set_elem_same.
    - intros kv' Hin'. rewrite serialized_field_key. by apply Hlast. }
  split; [done|]. intros v Hv.
  rewrite <- serialized_field_key in Hv.
  destruct (serialized_field kv) as [k v'] eqn:Hf. simpl in Hv |- *.
  by apply (NoDup_keys_unique _ k v v' Hnd).
Qed.

(** X4. A well-formed identifier of a stored product fetches that product:
    its fields as the store holds them, behind an [id] field with the
    identifier's text; the store is not written to. *)
Theorem get_product_found (product_id : string) (db : Store)
    (oid : ObjectId) (prod : Product.t)
    (Hoid : ObjectId_new product_id = Some oid)
    (Hprod : db_product db !! oid = Some prod) :
  get_product product_id db
  = (Ok (Some (("id", VStr (ObjectId_str oid))
               :: tail (product_document oid prod))), db).
Proof.
  unfold get_product, bind, find_one_product, ret.
  by rewrite Hoid, Hprod, serialize_product_document.
Qed.

(** ** Creating products *)

Lemma create_product_eq (payload : ProductSchema.t) (db : Store) :
  create_product payload db =
  (Ok (Some (("id", VStr (ObjectId_str (ObjectId_generate (db_assigned db))))
             :: tail (product_document (ObjectId_generate (db_assigned db))
                        (ProductSchema.model_dump payload)))),
   mk_Store (<[ObjectId_generate (db_assigned db)
               := ProductSchema.model_dump payload]> (db_product db))
     (db_order db) (N.succ (db_assigned db))).
Proof.
  unfold create_product, bind at 1, create_document_product.
  rewrite ObjectId_generate_new.
  unfold bind, find_one_product, ret. cbn [db_product].
  rewrite lookup_insert_eq. cbn [fmap option_fmap option_map].
  by rewrite serialize_product_document.
Qed.



(** ** Accepted orders *)

Lemma sanitize_orderable (db : Store) (item : OrderItem.t) :
  (∃ it, sanitize db item = Ok it) ↔ orderable db item.
Proof.
  unfold orderable. split.
  - intros (it & (oid & prod & Hoid & Hprod & Hin & Hq & Hv & ->)%sanitize_Ok).
    exists oid, prod. unfold in_stock_for in Hin.
    apply andb_prop in Hin as [Hin Hst%negb_true_iff%Z.ltb_ge].
    unfold OrderItem.validate, snapshot in Hv. simpl in Hv.
    apply andb_prop in Hv as [Hp Hq1%Z.leb_le]. done.
  - intros (oid & prod & Hoid & Hprod & Hin & Hq1 & Hst & Hq & Hp).
    exists (snapshot oid prod (OrderItem.quantity item)).
    apply sanitize_Ok. exists oid, prod. split_and!; try done.
    + unfold in_stock_for. rewrite Hin. simpl.
      apply negb_true_iff, Z.ltb_ge. done.
    + unfold OrderItem.validate, snapshot. simpl. rewrite Hp. simpl.
      by apply Z.leb_le.
Qed.

Lemma sanitize_all_orderable (db : Store) (items : list OrderItem.t) :
  (∃ its, sanitize_all db items = Ok its) ↔ Forall (orderable db) items.
Proof.
  split.
  - intros [its H%sanitize_all_Ok].
    induction H as [|item it items its Hs _ IH]; constructor; [|done].
    apply sanitize_orderable. by exists it.
  - induction 1 as [|item items Hitem _ [its IH]]; [by exists []|].
    apply sanitize_orderable in Hitem as [it Hit].
    exists (it :: its). simpl. by rewrite Hit, IH.
Qed.





Lemma fold_decrement_dom (its : list OrderItem.t)
    (products : gmap ObjectId Product.t) :
  dom (fold_left decrement its products) = dom products.
Proof.
  revert products. induction its as [|it its IH]; intros products; [done|].
  simpl. rewrite IH. unfold decrement. apply dom_alter_L.
Qed.

Lemma sanitized_unreferenced (db : Store) (items its : list OrderItem.t)
    (oid : ObjectId) :
  sanitize_all db items = Ok its →
  Forall (λ item, references oid item = false) items →
  Forall (λ it, OrderItem.product_id it ≠ oid) its.
Proof.
  intros H%sanitize_all_Ok Hun.
  induction H as [|item it items its Hs _ IH]; [constructor|].
  apply Forall_cons in Hun as [Hitem Hun]. constructor; [|by apply IH].
  apply sanitize_product_id in Hs as (Hnew & _ & _).
  unfold references in Hitem. apply bool_decide_eq_false in Hitem.
  intros Heq. apply Hitem. by rewrite Hnew, Heq.
Qed.

Lemma fold_decrement_None (its : list OrderItem.t)
    (products : gmap ObjectId Product.t) (oid : ObjectId) :
  products !! oid = None → fold_left decrement its products !! oid = None.
Proof.
  revert products. induction its as [|it its IH]; intros products H; [done|].
  simpl. apply IH. unfold decrement. by rewrite lookup_alter_None.
Qed.

Lemma ordered_quantity_orderable (db : Store) (items : list OrderItem.t)
    (oid : ObjectId) :
  Forall (orderable db) items → 0 ≤ ordered_quantity oid items.
Proof.
  induction 1 as [|item items Hitem _ IH]; simpl; [done|].
  destruct Hitem as (_ & _ & _ & _ & _ & Hq & _).
  destruct (references oid item); lia.
Qed.

(** With every product on one line at most, a product is ordered on no line
    or in the quantity of its one line. *)
Lemma ordered_quantity_distinct (items : list OrderItem.t) (oid : ObjectId) :
  NoDup ((λ item, ObjectId_new (OrderItem.product_id item)) <$> items) →
  ordered_quantity oid items = 0
  ∨ ∃ item, item ∈ items ∧ references oid item = true
            ∧ ordered_quantity oid items = OrderItem.quantity item.
Proof.
  induction items as [|item items IH]; simpl; [by left|].
  intros [Hhead Hnd]%NoDup_cons.
  destruct (references oid item) eqn:Href.
  - right. exists item. split_and!; [by left|done|].
    rewrite ordered_quantity_unreferenced; [lia|].
    apply Forall_forall. intros other Hin.
    apply bool_decide_eq_false. intros Hother. apply Hhead.
    apply bool_decide_eq_true in Href. rewrite Href, <- Hother.
    apply list_elem_of_fmap. by exists other.
  - destruct (IH Hnd) as [H0|(other & Hin & Hr & Hq)]; [by left|].
    right. exists other. split_and!; [by right|done|done].
Qed.

Lemma committed_product (order : Order.t) (its : list OrderItem.t)
    (db : Store) :
  db_product (committed order its db) = fold_left decrement its (db_product db).
Proof. done. Qed.


Lemma sanitize_all_validate (db : Store) (items its : list OrderItem.t) :
  sanitize_all db items = Ok its →
  forallb OrderItem.validate its = true ∧ length its = length items.
Proof.
  intros H%sanitize_all_Ok.
  induction H as [|item it items its Hs _ [IH1 IH2]]; simpl; [done|].
  apply sanitize_Ok in Hs as (_ & _ & _ & _ & _ & _ & -> & _).
  rewrite IH1, IH2. done.
Qed.

Lemma empty_order_rejected_eq (order : Order.t) (db : Store) :
  Order.items order = [] → create_order order db = (Raise EmptyOrder, db).
Proof. intros H. unfold create_order. by rewrite H. Qed.




(** X7. A request refused by validation leaves the store as it was: when the
    handler, or the endpoint around it, fails with an HTTP error, with the
    refusal of the request body, with a model validation error or with
    [OverflowError], nothing has been written. *)
Theorem refused_order_writes_nothing (body : Order.t) (db : Store) (e : exn)
    (He : raised_before_write e) :
  ((create_order body db).1 = Raise e → (create_order body db).2 = db)
  ∧ ((post_api_orders body db).1 = Raise e → (post_api_orders body db).2 = db).
Proof.
  assert (Hne : e ≠ InvalidId) by by intros ->.
  split; [by intros H; apply (create_order_Raise_store _ _ _ H)|].
  destruct (CreateOrderRequest body) as [order|] eqn:Hbody.
  - rewrite (post_api_orders_eq body order db Hbody).
    destruct (create_order order db) as [[content|e'] db'] eqn:Hc.
    + destruct (json_compliant_doc content); [done|].
      simpl. intros [= <-]. done.
    + simpl. intros [= ->].
      pose proof (create_order_Raise_store order db e) as H.
      rewrite Hc in H. by apply H.
  - unfold post_api_orders. by rewrite Hbody.
Qed.

(** X8. In a store that holds no order under the identifier about to be
    assigned, an accepted order adds exactly one document to the order
    collection, under that identifier, and leaves every order stored before
    as it was; it neither adds nor removes a product: each product keeps
    every field but [stock_qty], which does not grow, and a product that no
    requested item references is left as it was. *)
Theorem create_order_frame (order : Order.t) (db db' : Store)
    (d : option Dict)
    (Hok : create_order order db = (Ok d, db'))
    (Hfresh : db_order db !! ObjectId_generate (db_assigned db) = None) :
  (∃ o, db_order db'
        = <[ObjectId_generate (db_assigned db) := o]> (db_order db))
  ∧ size (db_order db') = S (size (db_order db))
  ∧ (∀ oid o, db_order db !! oid = Some o → db_order db' !! oid = Some o)
  ∧ db_assigned db' = N.succ (db_assigned db)
  ∧ dom (db_product db') = dom (db_product db)
  ∧ (∀ oid prod,
       db_product db !! oid = Some prod →
       ∃ prod',
         db_product db' !! oid = Some prod'
         ∧ default 0 (Product.stock_qty prod')
           ≤ default 0 (Product.stock_qty prod)
         ∧ Product.title prod' = Product.title prod
         ∧ Product.description prod' = Product.description prod
         ∧ Product.price prod' = Product.price prod
         ∧ Product.category prod' = Product.category prod
         ∧ Product.image prod' = Product.image prod
         ∧ Product.in_stock prod' = Product.in_stock prod)
  ∧ (∀ oid,
       Forall (λ item, references oid item = false) (Order.items order) →
       db_product db' !! oid = db_product db !! oid).
Proof.
  apply create_order_Ok in Hok as (its & Hs & _ & -> & _).
  split_and!.
  - by exists (order_doc_of order its).
  - unfold committed. cbn [db_order]. by rewrite map_size_insert_None.
  - intros oid o Ho. unfold committed. cbn [db_order].
    rewrite lookup_insert_ne; [done|]. intros <-. congruence.
  - done.
  - rewrite committed_product. apply fold_decrement_dom.
  - intros oid prod Hprod. rewrite committed_product.
    destruct (fold_decrement_Some its (db_product db) oid prod Hprod)
      as (prod' & Hl & Hq & _ & Hrest).
    exists prod'. split; [done|]. split; [|done].
    rewrite Hq, (quantity_of_sanitized _ _ _ _ Hs).
    assert (0 ≤ ordered_quantity oid (Order.items order)); [|lia].
    eapply ordered_quantity_orderable, sanitize_all_orderable. eauto.
  - intros oid Hun. rewrite committed_product.
    apply fold_decrement_unreferenced. by eapply sanitized_unreferenced.
Qed.

(** X9. The order an accepted request stores satisfies the constraints of the
    order model: every line has a price [>= 0] and a quantity [>= 1], and
    subtotal, shipping and total are [>= 0]. It has as many lines as the
    request has items, each under the canonical text of its product's
    identifier, and the customer's name, email and address as sent. *)
Theorem stored_order_valid (order : Order.t) (db db' : Store)
    (d : option Dict)
    (Hok : create_order order db = (Ok d, db')) :
  ∃ o,
    db_order db' !! ObjectId_generate (db_assigned db) = Some o
    ∧ Order.validate o = true
    ∧ length (Order.items o) = length (Order.items order)
    ∧ Forall (λ it, ObjectId_new (OrderItem.product_id it)
                    = Some (OrderItem.product_id it)) (Order.items o)
    ∧ Order.customer_name o = Order.customer_name order
    ∧ Order.customer_email o = Order.customer_email order
    ∧ Order.customer_address o = Order.customer_address order.
Proof.
  pose proof Hok as (its & Hs & Hv & -> & _)%create_order_Ok.
  exists (order_doc_of order its). rewrite committed_order.
  split_and!; try done.
  - unfold Order.validate. rewrite Hv, andb_true_r. simpl.
    by apply (sanitize_all_validate db (Order.items order)).
  - simpl. by apply (sanitize_all_validate db (Order.items order)).
  - simpl. by eapply create_order_Ok_ids.
Qed.

(** X10. The answer to an accepted order is the stored order document: its
    fields as stored, behind an [id] field with the text of the identifier
    the store assigned. *)
Theorem create_order_response (order : Order.t) (db db' : Store)
    (d : option Dict)
    (Hok : create_order order db = (Ok d, db')) :
  ∃ o,
    db_order db' !! ObjectId_generate (db_assigned db) = Some o
    ∧ d = Some (("id", VStr (ObjectId_str (ObjectId_generate (db_assigned db))))
                :: Order.model_dump o).
Proof.
  apply create_order_Ok in Hok as (its & _ & _ & -> & ->).
  exists (order_doc_of order its). rewrite committed_order.
  by rewrite serialize_order_document.
Qed.

(** X11. Every item of an accepted order names, by a well-formed identifier,
    a stored product that is in stock, in a quantity of at least one and at
    most the product's stock, and the product's price is [>= 0]. *)
Theorem accepted_items_orderable (order : Order.t) (db db' : Store)
    (d : option Dict)
    (Hok : create_order order db = (Ok d, db')) :
  Order.items order ≠ [] ∧ Forall (orderable db) (Order.items order).
Proof.
  split.
  - intros Hnil. by rewrite (empty_order_rejected_eq order db Hnil) in Hok.
  - apply create_order_Ok in Hok as (its & Hs & _).
    apply sanitize_all_orderable. eauto.
Qed.

(** X12. When no two items of an accepted order reference the same product,
    a catalog whose stocks are all [>= 0] still has all its stocks [>= 0]
    afterwards. *)
Theorem stock_stays_nonnegative (order : Order.t) (db db' : Store)
    (d : option Dict)
    (Hok : create_order order db = (Ok d, db'))
    (Hdistinct : NoDup ((λ item, ObjectId_new (OrderItem.product_id item))
                          <$> Order.items order))
    (Hdb : ∀ oid prod, db_product db !! oid = Some prod →
                       0 ≤ default 0 (Product.stock_qty prod)) :
  ∀ oid prod', db_product db' !! oid = Some prod' →
               0 ≤ default 0 (Product.stock_qty prod').
Proof.
  intros oid prod' Hprod'.
  apply create_order_Ok in Hok as (its & Hs & _ & -> & _).
  rewrite committed_product in Hprod'.
  destruct (db_product db !! oid) as [prod|] eqn:Hprod.
  2:{ by rewrite fold_decrement_None in Hprod'. }
  destruct (fold_decrement_Some its (db_product db) oid prod Hprod)
    as (prod'' & Hl & Hq & _).
  rewrite Hl in Hprod'. injection Hprod' as ->.
  rewrite Hq, (quantity_of_sanitized _ _ _ _ Hs).
  pose proof (Hdb oid prod Hprod) as Hstock.
  destruct (ordered_quantity_distinct (Order.items order) oid Hdistinct)
    as [->|(item & Hin & Href & ->)]; [lia|].
  assert (Ho : orderable db item).
  { assert (Hall : Forall (orderable db) (Order.items order))
      by (apply sanitize_all_orderable; eauto).
    rewrite Forall_forall in Hall. by apply Hall. }
  destruct Ho as (oid' & prod0 & Hoid & Hprod0 & _ & _ & Hle & _).
  apply bool_decide_eq_true in Href. rewrite Href in Hoid.
  injection Hoid as <-. rewrite Hprod in Hprod0. injection Hprod0 as <-. lia.
Qed.



(** X15. The stock an order leaves is the stock the next order meets: after
    an accepted order, a request whose first item orders more of a product
    than its stock less the quantity just ordered is refused with
    [InsufficientStock] naming the product, and nothing more is written. *)
Theorem order_after_order (order order2 : Order.t) (db db' : Store)
    (d : option Dict) (item2 : OrderItem.t) (post : list OrderItem.t)
    (oid : ObjectId) (prod : Product.t)
    (Hok : create_order order db = (Ok d, db'))
    (Hitems : Order.items order2 = item2 :: post)
    (Hoid : ObjectId_new (OrderItem.product_id item2) = Some oid)
    (Hprod : db_product db !! oid = Some prod)
    (Hshort : default 0 (Product.stock_qty prod)
              - ordered_quantity oid (Order.items order)
              < OrderItem.quantity item2) :
  create_order order2 db'
  = (Raise (InsufficientStock (default "product" (Product.title prod))), db').
Proof.
  apply create_order_Ok in Hok as (its & Hs & _ & -> & _).
  destruct (fold_decrement_Some its (db_product db) oid prod Hprod)
    as (prod' & Hl & Hq & _ & Ht & _).
  rewrite (quantity_of_sanitized _ _ _ _ Hs) in Hq.
  apply (create_order_first_refused order2 _ [] post item2); [done| |].
  - by exists (fzero, []).
  - apply sanitize_InsufficientStock. exists oid, prod'.
    rewrite committed_product. split_and!; [done|done| |by rewrite Ht].
    apply in_stock_for_false. right. lia.
Qed.


(** ** The identifiers the store assigns *)

Lemma digit_char_inj (d d' : N) :
  (d < 16)%N → (d' < 16)%N → digit_char d = digit_char d' → d = d'.
Proof using Type.
  unfold digit_char. intros Hd Hd' H.
  apply (f_equal N_of_ascii) in H.
  rewrite !N_ascii_embedding in H
    by (destruct (d <? 10)%N, (d' <? 10)%N; lia).
  destruct (N.ltb_spec d 10), (N.ltb_spec d' 10); lia.
Qed.

Lemma digits_inj (w : nat) (n m : N) (acc acc' : string) :
  digits 16 w n acc = digits 16 w m acc' →
  (n mod 16 ^ N.of_nat w = m mod 16 ^ N.of_nat w)%N ∧ acc = acc'.
Proof using Type.
  revert n m acc acc'.
  induction w as [|w IH]; intros n m acc acc' H.
  - simpl in H. by rewrite !N.mod_1_r.
  - cbn [digits] in H. apply IH in H as [Hdiv Hacc].
    injection Hacc as Hc ->. split; [|done].
    apply digit_char_inj in Hc; [|by apply N.mod_lt..].
    rewrite Nat2N.inj_succ, N.pow_succ_r'.
    rewrite !N.Div0.mod_mul_r. by rewrite Hc, Hdiv.
Qed.

(** Two counts below 16^24 have different identifiers. *)
Lemma ObjectId_generate_inj (k n : N) :
  (k < 16 ^ 24)%N → (n < 16 ^ 24)%N →
  ObjectId_generate k = ObjectId_generate n → k = n.
Proof using Type.
  intros Hk Hn [H _]%digits_inj.
  change (N.of_nat 24) with 24%N in H.
  by rewrite !N.mod_small in H.
Qed.

(** The decrements, wherever they stop, touch no order, assign no
    identifier and add no product. *)
Lemma decrement_stock_frame (its : list OrderItem.t) (db : Store) :
  db_order (decrement_stock its db).2 = db_order db
  ∧ db_assigned (decrement_stock its db).2 = db_assigned db
  ∧ ∀ oid, db_product db !! oid = None →
           db_product (decrement_stock its db).2 !! oid = None.
Proof using Type.
  revert db. induction its as [|it its IH]; intros db; [done|].
  cbn [decrement_stock].
  destruct (ObjectId_new (OrderItem.product_id it)) as [oid'|]; [|done].
  unfold bind, update_one_product_inc.
  set (db1 := mk_Store _ _ _).
  destruct (IH db1) as (Ho & Ha & Hp). rewrite Ho, Ha.
  split_and!; [done..|].
  intros oid Hnone. apply Hp. subst db1. cbn [db_product].
  by rewrite lookup_alter_None.
Qed.

(** A store that assigned one more identifier, to a document of one of its
    collections, and added no other document. *)
Lemma store_wf_succ (db db' : Store) :
  store_wf db →
  db_assigned db' = N.succ (db_assigned db) →
  (∀ oid, oid ≠ ObjectId_generate (db_assigned db) →
          (db_product db !! oid = None → db_product db' !! oid = None)
          ∧ (db_order db !! oid = None → db_order db' !! oid = None)) →
  store_wf db'.
Proof using Type.
  intros Hwf Ha Hother k [Hk1 Hk2]. rewrite Ha in Hk1.
  destruct (Hwf k) as [Hp Ho]; [lia|].
  destruct (Hother (ObjectId_generate k)) as [Hp' Ho']; [|by auto].
  intros Heq. apply ObjectId_generate_inj in Heq; lia.
Qed.

Lemma store_wf_create_order (order : Order.t) (db : Store) :
  store_wf db → store_wf (create_order order db).2.
Proof.
  intros Hwf. rewrite create_order_eq.
  destruct (Order.items order) as [|item rest]; [done|].
  destruct (sanitize_all db (item :: rest)) as [its|e]; [|done].
  destruct (Order.validate_fields _); [|done].
  destruct (forallb twelve_bytes its).
  - apply (store_wf_succ db); [done|done|]. intros oid Hne.
    cbn [snd committed db_product db_order]. split.
    + apply fold_decrement_None.
    + by rewrite lookup_insert_ne.
  - destruct (decrement_stock_frame its (inserted order its db))
      as (Ho & Ha & Hp).
    cbn [snd].
    apply (store_wf_succ db); [done|by rewrite Ha|]. intros oid Hne.
    rewrite Ho. split.
    + apply Hp.
    + cbn [inserted db_order]. by rewrite lookup_insert_ne.
Qed.

Lemma store_wf_create_product (payload : ProductSchema.t) (db : Store) :
  store_wf db → store_wf (create_product payload db).2.
Proof.
  intros Hwf. rewrite create_product_eq.
  apply (store_wf_succ db); [done|done|]. intros oid Hne.
  cbn [snd db_product db_order]. split; [|done].
  by rewrite lookup_insert_ne.
Qed.

(** X17. The identifier the store assigns is new: in a store that holds no
    document under an identifier it has yet to assign, as the empty store
    does, none is stored under the next identifier as long as one of the
    16^24 is left, and the store is such a store again after
    [create_order] and [create_product], and after the endpoints around
    them, whatever their outcome. *)
Theorem assigned_identifier_new (order : Order.t) (payload : ProductSchema.t)
    (db : Store) (Hwf : store_wf db) :
  ((db_assigned db < 16 ^ 24)%N →
   db_product db !! ObjectId_generate (db_assigned db) = None
   ∧ db_order db !! ObjectId_generate (db_assigned db) = None)
  ∧ store_wf (create_order order db).2
  ∧ store_wf (create_product payload db).2
  ∧ store_wf (post_api_orders order db).2
  ∧ store_wf (post_api_products payload db).2.
Proof.
  split_and!.
  - intros Hlt. apply Hwf. lia.
  - by apply store_wf_create_order.
  - by apply store_wf_create_product.
  - destruct (CreateOrderRequest order) as [order'|] eqn:Hbody.
    + rewrite (post_api_orders_eq order order' db Hbody).
      pose proof (store_wf_create_order order' db Hwf) as H.
      destruct (create_order order' db) as [[content|e] db']; [|done].
      by destruct (json_compliant_doc content).
    + unfold post_api_orders. by rewrite Hbody.
  - rewrite post_api_products_eq.
    destruct (ProductSchema.validate payload); [|done].
    pose proof (store_wf_create_product payload db Hwf) as H.
    destruct (create_product payload db) as [[content|e] db']; [|done].
    by destruct (json_compliant_doc content).
Qed.

End Main.

(** ** The handlers on the catalog *)

(** The example of the specification: three tees at 19.99 and shipping 5.00
    give subtotal 59.97, total 64.97 and leave 97 in stock. *)
Lemma tee_order_placed :
  create_order no_repr tee_order tee_db = (Ok tee_response, tee_db').
Proof. vm_compute. reflexivity. Qed.

Lemma mill_order_placed :
  ∃ d, create_order no_repr mill_order mill_db = (Ok d, mill_db').
Proof. eexists. vm_compute. reflexivity. Qed.

Lemma sticker_order_placed :
  ∃ d, create_order no_repr sticker_order sticker_db = (Ok d, sticker_db').
Proof. eexists. vm_compute. reflexivity. Qed.

Lemma twice_order_placed :
  ∃ d, create_order no_repr twice_order tee_db = (Ok d, twice_db').
Proof. eexists. vm_compute. reflexivity. Qed.

(** Ten anvils: the handler stores the order, with an infinite subtotal,
    and the endpoint fails to render it. *)
Lemma anvil_order_placed :
  ∃ d, create_order no_repr anvil_order anvil_db = (Ok d, anvil_db').
Proof. eexists. vm_compute. reflexivity. Qed.

Lemma anvil_order_unrendered :
  post_api_orders no_repr plain_email anvil_order anvil_db
  = (Raise ValueError, anvil_db').
Proof. vm_compute. reflexivity. Qed.


Lemma tee_order_answered :
  post_api_orders no_repr plain_email tee_order tee_db
  = (Ok tee_response, tee_db').
Proof. vm_compute. reflexivity. Qed.

Lemma no_address_refused :
  post_api_orders no_repr plain_email
    (Order.mk "Ada" "not an email" "1 Main St" [line tee_id 1] fzero fzero
       fzero "") tee_db
  = (Raise RequestValidationError, tee_db).
Proof. vm_compute. reflexivity. Qed.



(** ** The claims on the catalog *)

(** C1. The stored order of the example: subtotal and total as the theorem
    gives them. *)
Lemma order_totals_witness :
  create_order no_repr tee_order tee_db = (Ok tee_response, tee_db')
  ∧ ∃ o,
      db_order tee_db' !! ObjectId_generate (db_assigned tee_db) = Some o
      ∧ Order.subtotal o = round2 (items_sum (Order.items o))
      ∧ Order.shipping o = round2 (float_or_zero (Order.shipping tee_order))
      ∧ Order.total o
        = round2 (fadd (items_sum (Order.items o))
                    (float_or_zero (Order.shipping tee_order)))
      ∧ feqb (Order.subtotal o) (round2 (items_sum (Order.items o))) = true
      ∧ feqb (Order.total o)
          (round2 (fadd (items_sum (Order.items o))
                     (float_or_zero (Order.shipping tee_order)))) = true.
Proof.
  split; [exact tee_order_placed|].
  exact (order_totals no_repr tee_order tee_db tee_db' tee_response
           tee_order_placed).
Defined.

(** C1 as stated fails: one sticker at 1.00 with a shipping cost of 0.005 is
    accepted; the stored subtotal is 1.0, the stored shipping 0.01 and the
    stored total 1.0 (the double nearest 1.005 lies below it), which is not
    [round(1.0 + 0.01, 2) = 1.01]. *)
Lemma order_totals_counterexample :
  Order.validate sticker_order = true
  ∧ (∃ d, create_order no_repr sticker_order sticker_db = (Ok d, sticker_db'))
  ∧ db_order sticker_db' !! ObjectId_generate (db_assigned sticker_db)
    = Some sticker_stored
  ∧ Order.subtotal sticker_stored = float_of_Z 1
  ∧ Order.shipping sticker_stored = decimal 1 100
  ∧ Order.total sticker_stored = float_of_Z 1
  ∧ round2 (fadd (Order.subtotal sticker_stored)
              (Order.shipping sticker_stored)) = decimal 101 100
  ∧ feqb (Order.total sticker_stored)
      (round2 (fadd (Order.subtotal sticker_stored)
                 (Order.shipping sticker_stored)))
    = false.
Proof.
  split_and!; try (vm_compute; reflexivity). exact sticker_order_placed.
Qed.

(** C2. In the example the stock of the tee goes from 100 to 97. *)
Lemma stock_after_order_witness :
  3 ≤ 100
  ∧ ∃ prod',
      db_product tee_db' !! tee_id = Some prod'
      ∧ Product.stock_qty prod'
        = Some (100 - ordered_quantity tee_id (Order.items tee_order))
      ∧ (∀ pre post,
           Order.items tee_order
           = pre ++ line "64B7F3A2C1D4E5F60718293A" 3 :: post →
           Forall (λ other, references tee_id other = false) (pre ++ post) →
           Product.stock_qty prod' = Some (100 - 3))
      ∧ Product.title prod' = Product.title tee
      ∧ Product.price prod' = Product.price tee
      ∧ Product.image prod' = Product.image tee
      ∧ Product.in_stock prod' = Product.in_stock tee.
Proof.
  apply (stock_after_order no_repr tee_order tee_db tee_db' tee_response
           (line "64B7F3A2C1D4E5F60718293A" 3) tee_id tee 100).
  - exact tee_order_placed.
  - left. reflexivity.
  - vm_compute. reflexivity.
  - vm_compute. reflexivity.
  - reflexivity.
Defined.

(** C2 as stated fails: a request with two lines of one tee each is
    accepted; each line orders [Q = 1] of a product with stock [S = 100], and
    the stock afterwards is 98, not [S - Q = 99]. *)
Lemma stock_after_order_counterexample :
  Order.validate twice_order = true
  ∧ (∃ d, create_order no_repr twice_order tee_db = (Ok d, twice_db'))
  ∧ In (line tee_id 1) (Order.items twice_order)
  ∧ ObjectId_new (OrderItem.product_id (line tee_id 1)) = Some tee_id
  ∧ (Product.stock_qty <$> db_product tee_db !! tee_id) = Some (Some 100)
  ∧ (Product.stock_qty <$> db_product twice_db' !! tee_id) = Some (Some 98)
  ∧ (Product.stock_qty <$> db_product twice_db' !! tee_id)
    ≠ Some (Some (100 - OrderItem.quantity (line tee_id 1))).
Proof.
  split_and!; try (vm_compute; reflexivity).
  - exact twice_order_placed.
  - by left.
  - vm_compute. discriminate.
Qed.

(** C3. A line for 101 tees, of which 100 are in stock, fails with
    [InsufficientStock] naming the tee, and the store is as it was. *)
Lemma insufficient_stock_witness :
  (create_order no_repr short_order tee_db).1
  = Raise (InsufficientStock "Classic Tee")
  ∧ (create_order no_repr short_order tee_db).2 = tee_db.
Proof.
  destruct (insufficient_stock_iff no_repr short_order tee_db "Classic Tee")
    as [[_ Hif] Hstore].
  assert (H : (create_order no_repr short_order tee_db).1
              = Raise (InsufficientStock "Classic Tee")).
  { apply Hif. exists [], (line tee_id 101), [], (fzero, []), tee_id, tee.
    split_and!; try (vm_compute; reflexivity). right. reflexivity. }
  split; [exact H|exact (Hstore H)].
Defined.

(** C3 as stated fails: the second item orders 101 tees of a stock of 100,
    yet the request fails with the invalid-identifier error of its first
    item, not with [InsufficientStock]. *)
Lemma insufficient_stock_counterexample :
  In (line tee_id 101) (Order.items malformed_then_short)
  ∧ ObjectId_new (OrderItem.product_id (line tee_id 101)) = Some tee_id
  ∧ db_product tee_db !! tee_id = Some tee
  ∧ default 0 (Product.stock_qty tee) < OrderItem.quantity (line tee_id 101)
  ∧ create_order no_repr malformed_then_short tee_db
    = (Raise (InvalidIdentifier "nope"), tee_db)
  ∧ (create_order no_repr malformed_then_short tee_db).1
    ≠ Raise (InsufficientStock (default "product" (Product.title tee))).
Proof.
  split_and!; try (vm_compute; reflexivity).
  - right. by left.
  - vm_compute. discriminate.
Qed.

(** C4. The tampered request has the outcome of the plain one, and the stored
    line carries the catalog's price, title and image. *)
Lemma items_from_catalog_witness :
  create_order no_repr tee_order_tampered tee_db = (Ok tee_response, tee_db')
  ∧ ∃ o,
      db_order tee_db' !! ObjectId_generate (db_assigned tee_db) = Some o
      ∧ Forall2
          (λ item it,
             ∃ oid prod,
               ObjectId_new (OrderItem.product_id item) = Some oid
               ∧ db_product tee_db !! oid = Some prod
               ∧ OrderItem.product_id it = ObjectId_str oid
               ∧ OrderItem.price it = default fzero (Product.price prod)
               ∧ OrderItem.title it = default "Product" (Product.title prod)
               ∧ OrderItem.image it = Product.image prod
               ∧ OrderItem.quantity it = OrderItem.quantity item)
          (Order.items tee_order) (Order.items o).
Proof.
  apply (items_from_catalog no_repr tee_order tee_order_tampered tee_db tee_db'
           tee_response tee_order_placed).
  unfold same_but_item_details, same_line. simpl.
  split_and!; try reflexivity. constructor; [|constructor]. by split.
Defined.

(** C5. An empty request on the catalog. *)
Lemma empty_order_rejected_witness :
  create_order no_repr empty_order tee_db = (Raise EmptyOrder, tee_db).
Proof.
  apply (empty_order_rejected no_repr empty_order tee_db). reflexivity.
Defined.

(** C6. A request for a product that does not exist. *)
Lemma unknown_product_rejected_witness :
  (∃ pre' item' post' e,
     Order.items absent_order = pre' ++ item' :: post'
     ∧ (length pre' ≤ length (@nil OrderItem.t))%nat
     ∧ (∃ acc, validate_items pre' (fzero, []) tee_db = (Ok acc, tee_db))
     ∧ (∀ acc, (validate_item item' acc tee_db).1 = Raise e)
     ∧ create_order no_repr absent_order tee_db = (Raise e, tee_db))
  ∧ ((∃ acc, validate_items [] (fzero, []) tee_db = (Ok acc, tee_db)) →
     create_order no_repr absent_order tee_db
     = (Raise (ProductNotFound absent_id), tee_db)).
Proof.
  apply (unknown_product_rejected no_repr absent_order tee_db [] []
           (line absent_id 1) absent_id).
  - reflexivity.
  - vm_compute. reflexivity.
  - vm_compute. reflexivity.
Defined.

(** C6 as stated fails: the request contains a well-formed identifier that
    matches no product, yet it fails with the invalid-identifier error of the
    item before it, not with [ProductNotFound]. *)
Lemma unknown_product_rejected_counterexample :
  In (line absent_id 1) (Order.items malformed_then_absent)
  ∧ ObjectId_new (OrderItem.product_id (line absent_id 1)) = Some absent_id
  ∧ db_product tee_db !! absent_id = None
  ∧ create_order no_repr malformed_then_absent tee_db
    = (Raise (InvalidIdentifier "nope"), tee_db)
  ∧ (create_order no_repr malformed_then_absent tee_db).1
    ≠ Raise (ProductNotFound absent_id).
Proof.
  split_and!; try (vm_compute; reflexivity).
  - right. by left.
  - vm_compute. discriminate.
Qed.




(** C9. A stored document with a timestamp, serialized. *)
Lemma serialize_doc_fields_witness :
  serialize_doc no_repr (Some stamped)
  = Some [ ("id", VStr "64b7f3a2c1d4e5f60718293a");
           ("title", VStr "Classic Tee");
           ("created_at", VStr "2024-03-05T07:08:09");
           ("stock_qty", VInt 100) ].
Proof.
  destruct (serialize_doc_fields no_repr stamped) as [H _].
  - unfold stamped, keys. simpl. compute_done.
  - unfold stamped, keys. simpl. compute_done.
  - rewrite H. vm_compute. reflexivity.
Defined.

(** C10. The request with a subtotal, total and status of the client's has
    the outcome of the plain one. *)
Lemma client_totals_ignored_witness :
  create_order no_repr tee_order tee_db
  = create_order no_repr tee_order_totals tee_db
  ∧ ∃ o,
      db_order tee_db' !! ObjectId_generate (db_assigned tee_db) = Some o
      ∧ db_order (create_order no_repr tee_order_totals tee_db).2
          !! ObjectId_generate (db_assigned tee_db) = Some o
      ∧ Order.status o = "processing"
      ∧ Order.subtotal o = round2 (items_sum (Order.items o))
      ∧ Order.total o
        = round2 (fadd (items_sum (Order.items o))
                    (float_or_zero (Order.shipping tee_order))).
Proof.
  destruct (client_totals_ignored no_repr tee_order tee_order_totals tee_db)
    as [Heq Hstored].
  - unfold same_but_totals. split_and!; reflexivity.
  - split; [exact Heq|]. exact (Hstored tee_response tee_db' tee_order_placed).
Defined.

(** ** Further properties on the catalog *)

(** X3. Of the [_id] and the [id] of [clash], the [id] is kept. *)
Lemma serialize_doc_last_wins_witness :
  ∃ out,
    serialize_doc no_repr (Some clash) = Some out
    ∧ ("id", VInt 7) ∈ out
    ∧ ∀ v, ("id", v) ∈ out → v = VInt 7.
Proof.
  apply (serialize_doc_last_wins no_repr [("_id", VObjectId tee_id)] []
           ("id", VInt 7)).
  intros kv' Hin. by apply elem_of_nil in Hin.
Defined.

(** X4. The tee, fetched by its identifier in capitals. *)
Lemma get_product_found_witness :
  get_product no_repr "64B7F3A2C1D4E5F60718293A" tee_db
  = (Ok (Some (("id", VStr (ObjectId_str tee_id))
               :: tail (product_document tee_id tee))), tee_db).
Proof.
  apply (get_product_found no_repr "64B7F3A2C1D4E5F60718293A" tee_db tee_id tee).
  - vm_compute. reflexivity.
  - vm_compute. reflexivity.
Defined.


(** X7. The order for 101 tees leaves the catalog as it was. *)
Lemma refused_order_writes_nothing_witness :
  raised_before_write (InsufficientStock "Classic Tee")
  ∧ (create_order no_repr short_order tee_db).2 = tee_db
  ∧ (post_api_orders no_repr plain_email short_order tee_db).2 = tee_db.
Proof.
  assert (He : raised_before_write (InsufficientStock "Classic Tee"))
    by exact I.
  destruct (refused_order_writes_nothing no_repr plain_email short_order tee_db
              (InsufficientStock "Classic Tee") He) as [H1 H2].
  split; [exact He|].
  split; [apply H1|apply H2]; vm_compute; reflexivity.
Defined.

(** X8. The example's order in the store, which held none. *)
Lemma create_order_frame_witness :
  (∃ o, db_order tee_db'
        = <[ObjectId_generate (db_assigned tee_db) := o]> (db_order tee_db))
  ∧ size (db_order tee_db') = S (size (db_order tee_db))
  ∧ (∀ oid o, db_order tee_db !! oid = Some o →
              db_order tee_db' !! oid = Some o)
  ∧ db_assigned tee_db' = N.succ (db_assigned tee_db)
  ∧ dom (db_product tee_db') = dom (db_product tee_db)
  ∧ (∀ oid prod,
       db_product tee_db !! oid = Some prod →
       ∃ prod',
         db_product tee_db' !! oid = Some prod'
         ∧ default 0 (Product.stock_qty prod')
           ≤ default 0 (Product.stock_qty prod)
         ∧ Product.title prod' = Product.title prod
         ∧ Product.description prod' = Product.description prod
         ∧ Product.price prod' = Product.price prod
         ∧ Product.category prod' = Product.category prod
         ∧ Product.image prod' = Product.image prod
         ∧ Product.in_stock prod' = Product.in_stock prod)
  ∧ (∀ oid,
       Forall (λ item, references oid item = false) (Order.items tee_order) →
       db_product tee_db' !! oid = db_product tee_db !! oid).
Proof.
  apply (create_order_frame no_repr tee_order tee_db tee_db' tee_response
           tee_order_placed).
  reflexivity.
Defined.

(** X9. The example's stored order is a valid order. *)
Lemma stored_order_valid_witness :
  ∃ o,
    db_order tee_db' !! ObjectId_generate (db_assigned tee_db) = Some o
    ∧ Order.validate o = true
    ∧ length (Order.items o) = length (Order.items tee_order)
    ∧ Forall (λ it, ObjectId_new (OrderItem.product_id it)
                    = Some (OrderItem.product_id it)) (Order.items o)
    ∧ Order.customer_name o = Order.customer_name tee_order
    ∧ Order.customer_email o = Order.customer_email tee_order
    ∧ Order.customer_address o = Order.customer_address tee_order.
Proof.
  exact (stored_order_valid no_repr tee_order tee_db tee_db' tee_response
           tee_order_placed).
Defined.

(** X10. The example's answer is its stored order. *)
Lemma create_order_response_witness :
  ∃ o,
    db_order tee_db' !! ObjectId_generate (db_assigned tee_db) = Some o
    ∧ tee_response
      = Some (("id", VStr (ObjectId_str
                             (ObjectId_generate (db_assigned tee_db))))
              :: Order.model_dump o).
Proof.
  exact (create_order_response no_repr tee_order tee_db tee_db' tee_response
           tee_order_placed).
Defined.

(** X11. The example's item is orderable. *)
Lemma accepted_items_orderable_witness :
  Order.items tee_order ≠ [] ∧ Forall (orderable tee_db) (Order.items tee_order).
Proof.
  exact (accepted_items_orderable no_repr tee_order tee_db tee_db' tee_response
           tee_order_placed).
Defined.

(** X12. After the example the stock of the tee is still [>= 0]. *)
Lemma stock_stays_nonnegative_witness :
  db_product tee_db' !! tee_id = Some (inc_stock_qty (-3) tee)
  ∧ 0 ≤ default 0 (Product.stock_qty (inc_stock_qty (-3) tee)).
Proof.
  assert (Hl : db_product tee_db' !! tee_id = Some (inc_stock_qty (-3) tee))
    by (vm_compute; reflexivity).
  split; [exact Hl|].
  apply (stock_stays_nonnegative no_repr tee_order tee_db tee_db' tee_response
           tee_order_placed) with (oid := tee_id); [| |exact Hl].
  - apply NoDup_singleton.
  - intros oid prod. unfold tee_db. simpl.
    intros [_ <-]%lookup_singleton_Some. simpl. lia.
Defined.



(** X15. After the example, an order for 98 tees is refused: 97 are left. *)
Lemma order_after_order_witness :
  create_order no_repr second_order tee_db'
  = (Raise (InsufficientStock (default "product" (Product.title tee))), tee_db').
Proof.
  apply (order_after_order no_repr tee_order second_order tee_db tee_db'
           tee_response (line tee_id 98) [] tee_id tee).
  - exact tee_order_placed.
  - reflexivity.
  - vm_compute. reflexivity.
  - vm_compute. reflexivity.
  - vm_compute. reflexivity.
Defined.

(** X17. The empty store, and the store after a jacket is created in it
    and two are ordered. *)
Lemma assigned_identifier_new_witness :
  store_wf empty_db
  ∧ db_product empty_db !! ObjectId_generate 0 = None
  ∧ db_order empty_db !! ObjectId_generate 0 = None
  ∧ store_wf (create_product no_repr jacket empty_db).2
  ∧ store_wf (create_order no_repr jacket_order
                (create_product no_repr jacket empty_db).2).2.
Proof.
  assert (Hwf : store_wf empty_db) by (intros k _; split; apply lookup_empty).
  destruct (assigned_identifier_new no_repr plain_email jacket_order jacket
              empty_db Hwf) as (Hnew & _ & Hproduct & _).
  destruct (assigned_identifier_new no_repr plain_email jacket_order jacket
              (create_product no_repr jacket empty_db).2 Hproduct)
    as (_ & Horder & _).
  destruct Hnew as [Hp Ho]; [reflexivity|].
  split_and!; [exact Hwf|exact Hp|exact Ho|exact Hproduct|exact Horder].
Defined.

